(** * Astronaut Survival AI API (main.py): a shallow embedding and its properties

    The development follows the layout of [main.py]:
    - [Py]: the numeric comparisons and the exceptions the code relies on;
    - [Risk]: [calculate_risk_level];
    - [Feedback]: [generate_feedback];
    - [Sklearn]: the scikit-learn objects the endpoints call
      ([DictVectorizer], [StandardScaler], the forest's voting rule);
    - [Api]: the process-wide state and the [train], [predict] and
      [model_info] endpoints, written over the interface of the library.

    Numbers are rationals: every threshold of the source is a decimal
    literal, and the comparisons only use the order. *)

From Stdlib Require Import QArith Qabs ZArith String List Lia Lqa Bool.
From stdpp Require Import gmap strings list fin_maps.

Local Open Scope Q_scope.

(** An observation is a Python [dict] from field names to numbers. *)
Abbreviation Observation := (gmap string Q).

(** ** Python-level primitives *)
Module Py.

(** [x < y] and [x > y] on numbers. *)
Definition ltb (x y : Q) : bool := negb (Qle_bool y x).
Definition gtb (x y : Q) : bool := ltb y x.

(** [key in data] and [data.get(key, default)] on a dict. *)
Definition contains (data : Observation) (key : string) : bool :=
  match data !! key with Some _ => true | None => false end.

Definition get (data : Observation) (key : string) (default : Q) : Q :=
  match data !! key with Some v => v | None => default end.

(** Exceptions.  An [HTTPException] carries its status code and its detail;
    the details are the messages of the source, kept structured. *)
Inductive exn :=
| HTTPException (status_code : nat) (detail : detail)
| Error (class_name : string)
with detail :=
| ModelNotTrained
    (* "Model not trained yet. Please call /train first" *)
| StatusFieldMissing
    (* "Training data must include 'status' field with values ..." *)
| InvalidStatusValues (invalid_count : nat)
    (* "Found {invalid_count} invalid status values. Must be ..." *)
| TrainingFailed (e : exn)
    (* "Training failed: {str(e)}" *)
| PredictionFailed (e : exn).
    (* "Prediction failed: {str(e)}" *)

Inductive except (A : Type) :=
| Ok (a : A)
| Raise (e : exn).
Arguments Ok {A} a.
Arguments Raise {A} e.

Definition bind_except {A B} (x : except A) (f : A -> except B) : except B :=
  match x with
  | Ok a => f a
  | Raise e => Raise e
  end.

(** [l[i]] on a list: [IndexError] out of range. *)
Definition item {A} (l : list A) (i : nat) : except A :=
  match nth_error l i with
  | Some a => Ok a
  | None => Raise (Error "IndexError")
  end.

End Py.

Infix "<?" := Py.ltb (at level 70, no associativity) : Q_scope.
Infix ">?" := Py.gtb (at level 70, no associativity) : Q_scope.

(** ** Risk Scorer: [calculate_risk_level] (main.py, lines 133-163) *)
Module Risk.

(** The accumulation of [risk_score], one [let] per [if] of the source. *)
Definition risk_score (data : Observation) : Z :=
  let risk_score := 0%Z in
  let risk_score :=
    match data !! "oxygen_level" with
    | Some o2 =>
        if (o2 <? 18) || (o2 >? 25) then (risk_score + 3)%Z
        else if (o2 <? 19.5) || (o2 >? 23.5) then (risk_score + 1)%Z
        else risk_score
    | None => risk_score
    end in
  let risk_score :=
    match data !! "co2_level" with
    | Some co2 => if co2 >? 1.0 then (risk_score + 3)%Z else risk_score
    | None => risk_score
    end in
  let risk_score :=
    match data !! "radiation" with
    | Some rad => if rad >? 0.5 then (risk_score + 3)%Z else risk_score
    | None => risk_score
    end in
  let risk_score :=
    match data !! "food_supply_days" with
    | Some food => if food <? 7 then (risk_score + 2)%Z else risk_score
    | None => risk_score
    end in
  let risk_score :=
    match data !! "water_supply_days" with
    | Some water => if water <? 3 then (risk_score + 2)%Z else risk_score
    | None => risk_score
    end in
  risk_score.

Definition calculate_risk_level
    (data : Observation) (status : string) (confidence : Q) : string :=
  let risk_score := risk_score data in
  if String.eqb status "dead" then "CRITICAL"
  else if (5 <=? risk_score)%Z then "HIGH"
  else if (2 <=? risk_score)%Z then "MEDIUM"
  else "LOW".

(** The table of section 4.4 of the specification, row by row. *)
Record rule := Rule { field : string; fires : Q -> bool; delta : Z }.

Definition spec_rules : list rule :=
  [ Rule "oxygen_level" (fun v => (v <? 18) || (v >? 25)) 3;
    Rule "oxygen_level"
      (fun v => (Qle_bool 18 v && (v <? 19.5)) ||
                ((v >? 23.5) && Qle_bool v 25)) 1;
    Rule "co2_level" (fun v => v >? 1.0) 3;
    Rule "radiation" (fun v => v >? 0.5) 3;
    Rule "food_supply_days" (fun v => v <? 7) 2;
    Rule "water_supply_days" (fun v => v <? 3) 2 ].

(** A rule contributes only when its field is present and its condition
    holds. *)
Definition contribution (data : Observation) (r : rule) : Z :=
  match data !! field r with
  | Some v => if fires r v then delta r else 0%Z
  | None => 0%Z
  end.

Definition spec_score (data : Observation) : Z :=
  fold_right (fun r acc => (contribution data r + acc)%Z) 0%Z spec_rules.

(** The observation of the worked example of section 8. *)
Definition low_oxygen : Observation :=
  <["oxygen_level" := 15]> (<["co2_level" := 0.3]> ∅).

(** The fields the scorer reads, and how many of them an observation has. *)
Definition risk_fields : list string :=
  ["oxygen_level"; "co2_level"; "radiation"; "food_supply_days";
   "water_supply_days"].

Definition risk_fields_present (data : Observation) : nat :=
  length (List.filter (Py.contains data) risk_fields).

End Risk.

(** ** Feedback Generator: [generate_feedback] (main.py, lines 47-131) *)
Module Feedback.

(** An f-string is kept as its pieces: the literal text, [{x}] and
    [{x:.1%}]. *)
Inductive fragment :=
| Lit (text : string)
| Num (value : Q)
| Percent1 (value : Q).

Definition message := list fragment.

(** Lines 49-121: every block of the source appends to [feedback] the
    message of its field, when the field is present. *)

(* Oxygen analysis *)
Definition oxygen_analysis (data : Observation) (feedback : list message)
    : list message :=
  match data !! "oxygen_level" with
  | Some o2 =>
      if o2 <? 18 then
        feedback ++ [[Lit "⚠️ CRITICAL: Oxygen at "; Num o2;
                      Lit "% - Immediate action required!"]]
      else if o2 <? 19.5 then
        feedback ++ [[Lit "⚠️ WARNING: Oxygen at "; Num o2;
                      Lit "% - Below safe minimum"]]
      else if o2 >? 23.5 then
        feedback ++ [[Lit "⚠️ WARNING: Oxygen at "; Num o2;
                      Lit "% - Above safe maximum"]]
      else
        feedback ++ [[Lit "✓ Oxygen at "; Num o2; Lit "% - Normal"]]
  | None => feedback
  end.

(* CO2 analysis *)
Definition co2_analysis (data : Observation) (feedback : list message)
    : list message :=
  match data !! "co2_level" with
  | Some co2 =>
      if co2 >? 1.0 then
        feedback ++ [[Lit "⚠️ CRITICAL: CO2 at "; Num co2;
                      Lit "% - Scrubbers failing!"]]
      else if co2 >? 0.5 then
        feedback ++ [[Lit "⚠️ WARNING: CO2 at "; Num co2;
                      Lit "% - Monitor closely"]]
      else
        feedback ++ [[Lit "✓ CO2 at "; Num co2; Lit "% - Normal"]]
  | None => feedback
  end.

(* Temperature analysis *)
Definition temperature_analysis (data : Observation)
    (feedback : list message) : list message :=
  if Py.contains data "temperature" || Py.contains data "heat" then
    let temp := Py.get data "temperature" (Py.get data "heat" 0) in
    if temp <? 15 then
      feedback ++ [[Lit "⚠️ WARNING: Temperature "; Num temp;
                    Lit "°C - Too cold"]]
    else if temp >? 30 then
      feedback ++ [[Lit "⚠️ WARNING: Temperature "; Num temp;
                    Lit "°C - Too hot"]]
    else
      feedback ++ [[Lit "✓ Temperature "; Num temp;
                    Lit "°C - Comfortable"]]
  else feedback.

(* Humidity analysis *)
Definition humidity_analysis (data : Observation) (feedback : list message)
    : list message :=
  match data !! "humidity" with
  | Some humidity =>
      if humidity <? 30 then
        feedback ++ [[Lit "⚠️ WARNING: Humidity "; Num humidity;
                      Lit "% - Too dry"]]
      else if humidity >? 70 then
        feedback ++ [[Lit "⚠️ WARNING: Humidity "; Num humidity;
                      Lit "% - Too humid"]]
      else
        feedback ++ [[Lit "✓ Humidity "; Num humidity; Lit "% - Normal"]]
  | None => feedback
  end.

(* Radiation analysis *)
Definition radiation_analysis (data : Observation)
    (feedback : list message) : list message :=
  match data !! "radiation" with
  | Some rad =>
      if rad >? 0.5 then
        feedback ++ [[Lit "⚠️ CRITICAL: Radiation "; Num rad;
                      Lit " mSv - Seek shelter!"]]
      else if rad >? 0.1 then
        feedback ++ [[Lit "⚠️ WARNING: Radiation "; Num rad;
                      Lit " mSv - Elevated levels"]]
      else
        feedback ++ [[Lit "✓ Radiation "; Num rad; Lit " mSv - Safe"]]
  | None => feedback
  end.

(* Food supply analysis *)
Definition food_analysis (data : Observation) (feedback : list message)
    : list message :=
  match data !! "food_supply_days" with
  | Some food =>
      if food <? 7 then
        feedback ++ [[Lit "⚠️ CRITICAL: Food supply "; Num food;
                      Lit " days - Emergency!"]]
      else if food <? 30 then
        feedback ++ [[Lit "⚠️ WARNING: Food supply "; Num food;
                      Lit " days - Ration required"]]
      else
        feedback ++ [[Lit "✓ Food supply "; Num food;
                      Lit " days - Adequate"]]
  | None => feedback
  end.

(* Water supply analysis *)
Definition water_analysis (data : Observation) (feedback : list message)
    : list message :=
  match data !! "water_supply_days" with
  | Some water =>
      if water <? 3 then
        feedback ++ [[Lit "⚠️ CRITICAL: Water supply "; Num water;
                      Lit " days - Emergency!"]]
      else if water <? 14 then
        feedback ++ [[Lit "⚠️ WARNING: Water supply "; Num water;
                      Lit " days - Ration required"]]
      else
        feedback ++ [[Lit "✓ Water supply "; Num water;
                      Lit " days - Adequate"]]
  | None => feedback
  end.

Definition field_feedback (data : Observation) : list message :=
  let feedback := [] in
  let feedback := oxygen_analysis data feedback in
  let feedback := co2_analysis data feedback in
  let feedback := temperature_analysis data feedback in
  let feedback := humidity_analysis data feedback in
  let feedback := radiation_analysis data feedback in
  let feedback := food_analysis data feedback in
  let feedback := water_analysis data feedback in
  feedback.

(** Lines 123-129: the overall-status line. *)
Definition overall_status (status : string) (confidence : Q) : message :=
  if String.eqb status "alive" && (confidence >? 0.8) then
    [Lit "✓ Overall status: STABLE (confidence: "; Percent1 confidence;
     Lit ")"]
  else if String.eqb status "alive" then
    [Lit "⚠️ Overall status: MARGINAL (confidence: "; Percent1 confidence;
     Lit ")"]
  else
    [Lit "⚠️ Overall status: CRITICAL (confidence: "; Percent1 confidence;
     Lit ")"].

Definition placeholder : message := [Lit "No specific feedback available"].

(** The messages of the field blocks are made of three pieces. *)
Definition three_pieces (m : message) : Prop := length m = 3%nat.

Definition generate_feedback
    (data : Observation) (status : string) (confidence : Q)
    : list message :=
  let feedback := field_feedback data in
  let feedback := feedback ++ [overall_status status confidence] in
  match feedback with
  | [] => [placeholder]
  | _ :: _ => feedback
  end.

(** The fields the generator looks at. *)
Definition recognized_fields : list string :=
  ["oxygen_level"; "co2_level"; "temperature"; "heat"; "humidity";
   "radiation"; "food_supply_days"; "water_supply_days"].

(** No recognized field is a key of the observation. *)
Definition no_recognized_field (data : Observation) : bool :=
  forallb (fun name => negb (Py.contains data name)) recognized_fields.

(** [mentions word m]: some literal piece of [m] contains [word]. *)
Definition mentions (word : string) (m : message) : bool :=
  existsb (fun f =>
             match f with
             | Lit text =>
                 match String.index 0 word text with
                 | Some _ => true
                 | None => false
                 end
             | _ => false
             end) m.

(** The seven blocks of the source, each with the keys that trigger it, and
    how many of them an observation triggers. *)
Definition blocks : list (list string) :=
  [["oxygen_level"]; ["co2_level"]; ["temperature"; "heat"]; ["humidity"];
   ["radiation"]; ["food_supply_days"]; ["water_supply_days"]].

Definition blocks_present (data : Observation) : nat :=
  length (List.filter (fun keys => existsb (Py.contains data) keys) blocks).

End Feedback.

(** ** The scikit-learn objects of the pipeline

    [main.py] calls [DictVectorizer(sparse=False)], [StandardScaler()] and
    [RandomForestClassifier]; their code is the library's.  The definitions
    below follow the library's behaviour on numeric input. *)
Module Sklearn.

Definition vector := list Q.
Definition matrix := list vector.

(** *** Floating point

    The library works on float64 arrays.  A float64 is kept as the rational
    it denotes; [round], the rounding of a number to the nearest float64,
    the mean and the variance of a column as the library computes them in
    floating point, and the square root, are parameters of the definitions
    below. *)

(** The integers from [2^1024 - 2^970] on round beyond the largest float64:
    converting one of them is an [OverflowError].  (A JSON real of that size
    is read as an infinity, which an [Observation] does not hold.) *)
Definition float64_overflow : Q := inject_Z (2 ^ 1024 - 2 ^ 970).

(** Insertion into the sorted list of feature names, without duplicates. *)
Fixpoint insert_name (name : string) (names : list string) : list string :=
  match names with
  | [] => [name]
  | n :: rest =>
      if String.eqb name n then names
      else if String.ltb name n then name :: names
      else n :: insert_name name rest
  end.

(** [fit]: [feature_names_] is the sorted union of the keys. *)
Definition fit_vocabulary (X : list Observation) : list string :=
  fold_left (fun names x =>
               fold_right insert_name names (map fst (map_to_list x)))
            X [].

Definition column (X : matrix) (j : nat) : list Q :=
  map (fun row => nth j row 0) X.

Definition n_features (X : matrix) : nat :=
  match X with
  | [] => 0%nat
  | row :: _ => length row
  end.

Record scaler_stats := Stats {
  mean_ : list Q;
  var_ : list Q;
  scale_ : list Q
}.

(** [_handle_zeros_in_scale]: the scale of a constant feature is replaced
    by 1.  A feature is constant when its scale is 0; the later versions of
    the library also take as constant, by [constant_mask], a feature whose
    variance is within rounding error of 0. *)
Definition handle_zeros_in_scale (scale : Q) (constant_mask : bool) : Q :=
  if Qeq_bool scale 0 || constant_mask then 1 else scale.

Section Float64.

Variable round : Q -> Q.

(** *** DictVectorizer on numeric dicts *)

(** [np.float64(v)], which the vectorizer applies to every value it keeps. *)
Definition to_float64 (v : Q) : Py.except Q :=
  if Qle_bool float64_overflow (Qabs v) then
    Py.Raise (Py.Error "OverflowError")
  else Py.Ok (round v).

(** [transform]: one slot per name of the vocabulary, holding the value of
    the dict for that name, converted to float64, and 0 when the dict has
    none; the values under the keys outside the vocabulary are neither
    converted nor kept. *)
Fixpoint transform_one (vocabulary : list string) (x : Observation)
    : Py.except vector :=
  match vocabulary with
  | [] => Py.Ok []
  | name :: names =>
      Py.bind_except
        (match x !! name with
         | Some v => to_float64 v
         | None => Py.Ok 0
         end) (fun slot =>
      Py.bind_except (transform_one names x) (fun slots =>
      Py.Ok (slot :: slots)))
  end.

Fixpoint vectorizer_transform
    (vocabulary : list string) (X : list Observation) : Py.except matrix :=
  match X with
  | [] => Py.Ok []
  | x :: X' =>
      Py.bind_except (transform_one vocabulary x) (fun row =>
      Py.bind_except (vectorizer_transform vocabulary X') (fun rows =>
      Py.Ok (row :: rows)))
  end.

(** *** StandardScaler *)

(** [mean_] and [var_] of a column, as the library computes them. *)
Variable column_mean : list Q -> Q.
Variable column_var : list Q -> Q.
Variable sqrt : Q -> Q.

(** [_is_constant_feature var mean n_samples], of the versions of the
    library that have it; constantly [false] for the others. *)
Variable is_constant_feature : Q -> Q -> nat -> bool.

Definition std (col : list Q) : Q := sqrt (column_var col).

Definition constant_mask (X : matrix) (col : list Q) : bool :=
  is_constant_feature (column_var col) (column_mean col) (length X).

(** [fit]: the statistics of every column; no sample is a
    [ValueError]. *)
Definition scaler_fit (X : matrix) : Py.except scaler_stats :=
  match X with
  | [] => Py.Raise (Py.Error "ValueError")
  | _ :: _ =>
      let columns := map (column X) (seq 0 (n_features X)) in
      Py.Ok {| mean_ := map column_mean columns;
               var_ := map column_var columns;
               scale_ := map (fun col =>
                               handle_zeros_in_scale (std col)
                                 (constant_mask X col))
                             columns |}
  end.

(** [X -= mean_] then [X /= scale_] on one entry, each operation rounded;
    the division is checked, so that a scale of 0 would show as
    [ZeroDivisionError]. *)
Definition scale_entry (x m s : Q) : Py.except Q :=
  if Qeq_bool s 0 then Py.Raise (Py.Error "ZeroDivisionError")
  else Py.Ok (round (round (x - m) / s)).

Fixpoint scale_row (x means scales : list Q) : Py.except vector :=
  match x, means, scales with
  | [], [], [] => Py.Ok []
  | xi :: x', m :: means', s :: scales' =>
      Py.bind_except (scale_entry xi m s) (fun v =>
      Py.bind_except (scale_row x' means' scales') (fun rest =>
      Py.Ok (v :: rest)))
  | _, _, _ => Py.Raise (Py.Error "ValueError")
  end.

(** [transform]: a row of another width than the fitted one is a
    [ValueError]. *)
Definition scaler_transform_one (stats : scaler_stats) (x : vector)
    : Py.except vector :=
  scale_row x (mean_ stats) (scale_ stats).

Fixpoint scaler_transform (stats : scaler_stats) (X : matrix)
    : Py.except matrix :=
  match X with
  | [] => Py.Ok []
  | x :: X' =>
      Py.bind_except (scaler_transform_one stats x) (fun v =>
      Py.bind_except (scaler_transform stats X') (fun rest =>
      Py.Ok (v :: rest)))
  end.

End Float64.

(** *** The forest's vote *)

(** [classes_]: the labels in sorted order, so that index 0 of a row of
    [predict_proba] is "alive" and index 1 is "dead". *)
Definition classes_ : list string := ["alive"; "dead"].

(** [np.argmax]: the index of the first maximum. *)
Fixpoint argmax_from (best : Q) (best_i i : nat) (l : list Q) : nat :=
  match l with
  | [] => best_i
  | x :: l' =>
      if x >? best then argmax_from x i (S i) l'
      else argmax_from best best_i (S i) l'
  end.

Definition argmax (l : list Q) : nat :=
  match l with
  | [] => 0%nat
  | x :: l' => argmax_from x 0%nat 1%nat l'
  end.

(** [predict]: the class of the largest probability. *)
Definition vote (classes : list string) (proba : list Q)
    : Py.except string :=
  Py.item classes (argmax proba).

End Sklearn.

(** ** The endpoints of [main.py] *)
Module Api.
Import Py.

(** *** Training records and the DataFrame built from them *)

(** A value of a parsed JSON record: a number, a string, or a nested
    object (a Python [dict]).  Booleans, null and arrays are left out. *)
Inductive json :=
| JNum (value : Q)
| JStr (text : string)
| JObject.

(** A record is a dict, kept with its keys in insertion order. *)
Definition record := list (string * json).

Definition lookup_key (r : record) (key : string) : option json :=
  match find (fun kv => String.eqb (fst kv) key) r with
  | Some kv => Some (snd kv)
  | None => None
  end.

(** [df.columns]: the keys of the records, in order of first appearance. *)
Definition add_column (cols : list string) (key : string) : list string :=
  if existsb (String.eqb key) cols then cols else cols ++ [key].

Definition df_columns (data : list record) : list string :=
  fold_left (fun cols r => fold_left add_column (map fst r) cols) data [].

(** A cell of the frame: the value of the record, or NaN ([None]) when
    the record has no such key. *)
Definition cell := option json.
Definition row := list (string * cell).

(** [df["status"]]: the cell of every record under "status". *)
Definition status_column (data : list record) : list cell :=
  map (fun r => lookup_key r "status") data.

(** [df["status"].isin(["alive", "dead"])]: a cell is in the list when it
    is one of the two strings; a number, a nested object and a missing cell
    are not. *)
Definition is_alive_or_dead (c : cell) : bool :=
  match c with
  | Some (JStr s) => String.eqb s "alive" || String.eqb s "dead"
  | _ => false
  end.

Definition isin_alive_dead (column : list cell) : list bool :=
  map is_alive_or_dead column.

Definition drop_status (cols : list string) : list string :=
  List.filter (fun c => negb (String.eqb c "status")) cols.

(** [df.drop(columns=["status"]).to_dict(orient="records")]. *)
Definition to_records (cols : list string) (data : list record)
    : list row :=
  map (fun r => map (fun c => (c, lookup_key r c)) cols) data.

(** [df["status"].values], once every status is a string. *)
Definition status_values (data : list record) : list string :=
  map (fun r => match lookup_key r "status" with
                | Some (JStr s) => s
                | _ => EmptyString
                end) data.

Definition count_label (label : string) (y : list string) : nat :=
  length (List.filter (String.eqb label) y).

(** [key in df.columns]. *)
Definition has_column (cols : list string) (key : string) : Prop :=
  existsb (String.eqb key) cols = true.

(** The training files the two validations of [train] let through: at least
    one record, and every record labelled "alive" or "dead". *)
Definition labelled (data : list record) : Prop :=
  data <> [] /\
  forall r, In r data -> is_alive_or_dead (lookup_key r "status") = true.

(** *** The library, as the endpoints see it

    The endpoints only create the three objects and call their methods.
    A method that fits an object changes it in place: it returns the
    object after the call next to its result. *)
Class Library := {
  Matrix : Type;
  Vectorizer : Type;
  Scaler : Type;
  Forest : Type;
  Params : Type;
  (* DictVectorizer(sparse=False) *)
  DictVectorizer : Vectorizer;
  (* StandardScaler() *)
  StandardScaler : Scaler;
  (* RandomForestClassifier(n_estimators, max_depth, min_samples_split,
                            random_state) *)
  RandomForestClassifier : nat -> nat -> nat -> nat -> Forest;
  vectorizer_fit_transform :
    Vectorizer -> list row -> Vectorizer * except Matrix;
  vectorizer_transform : Vectorizer -> list Observation -> except Matrix;
  scaler_fit_transform : Scaler -> Matrix -> Scaler * except Matrix;
  scaler_transform : Scaler -> Matrix -> except Matrix;
  forest_fit : Forest -> Matrix -> list string -> Forest * except unit;
  forest_predict : Forest -> Matrix -> except (list string);
  forest_predict_proba : Forest -> Matrix -> except (list (list Q));
  forest_score : Forest -> Matrix -> list string -> except Q;
  (* bool(model), which is len(model.estimators_) != 0 for an ensemble *)
  forest_bool : Forest -> except bool;
  forest_get_params : Forest -> Params
}.

Section Endpoints.

Context {L : Library}.

(** *** Global storage (lines 25-35) *)

Record TrainingStats := {
  samples : nat;
  features : nat;
  stats_feature_names : list string;
  alive_count : nat;
  dead_count : nat
}.

(** The three files: MODEL_PATH, VECTORIZER_PATH and SCALER_PATH.
    [None] is a file that does not exist; a file that exists holds the
    object [train] dumped into it, whole. *)
Record Disk := {
  model_pkl : option Forest;
  vectorizer_pkl : option Vectorizer;
  scaler_pkl : option Scaler
}.

Record State := {
  vectorizer : option Vectorizer;
  model : option Forest;
  scaler : option Scaler;
  feature_names : list string;
  training_stats : option TrainingStats;  (* [None] is the empty dict *)
  disk : Disk
}.

(** The state of a fresh process over a given disk. *)
Definition fresh_process (d : Disk) : State :=
  {| vectorizer := None; model := None; scaler := None;
     feature_names := []; training_stats := None; disk := d |}.

Definition no_files : Disk :=
  {| model_pkl := None; vectorizer_pkl := None; scaler_pkl := None |}.

(** *** Statements over the globals, which may raise *)

Definition M (A : Type) : Type := State -> State * except A.

Definition ret {A} (a : A) : M A := fun s => (s, Ok a).

Definition raise {A} (e : exn) : M A := fun s => (s, Raise e).

Definition bind {A B} (m : M A) (k : A -> M B) : M B :=
  fun s =>
    match m s with
    | (s', Ok a) => k a s'
    | (s', Raise e) => (s', Raise e)
    end.

(** [try: body except Exception as e: handler e]. *)
Definition try_except {A} (body : M A) (handler : exn -> M A) : M A :=
  fun s =>
    match body s with
    | (s', Ok a) => (s', Ok a)
    | (s', Raise e) => handler e s'
    end.

Definition lift {A} (x : except A) : M A := fun s => (s, x).

Definition gets {A} (f : State -> A) : M A := fun s => (s, Ok (f s)).

Definition modify (f : State -> State) : M unit :=
  fun s => (f s, Ok tt).

(** [x ← m; k] and [m ;; k] are sequencing. *)
#[local] Instance M_ret : MRet M := @ret.
#[local] Instance M_bind : MBind M := fun A B k m => bind m k.

(** Assignments to the globals. *)
Definition set_vectorizer (v : option Vectorizer) (s : State) : State :=
  {| vectorizer := v; model := model s; scaler := scaler s;
     feature_names := feature_names s;
     training_stats := training_stats s; disk := disk s |}.

Definition set_model (m : option Forest) (s : State) : State :=
  {| vectorizer := vectorizer s; model := m; scaler := scaler s;
     feature_names := feature_names s;
     training_stats := training_stats s; disk := disk s |}.

Definition set_scaler (sc : option Scaler) (s : State) : State :=
  {| vectorizer := vectorizer s; model := model s; scaler := sc;
     feature_names := feature_names s;
     training_stats := training_stats s; disk := disk s |}.

Definition set_feature_names (names : list string) (s : State) : State :=
  {| vectorizer := vectorizer s; model := model s; scaler := scaler s;
     feature_names := names;
     training_stats := training_stats s; disk := disk s |}.

Definition set_training_stats (t : option TrainingStats) (s : State)
    : State :=
  {| vectorizer := vectorizer s; model := model s; scaler := scaler s;
     feature_names := feature_names s;
     training_stats := t; disk := disk s |}.

Definition set_disk (d : Disk) (s : State) : State :=
  {| vectorizer := vectorizer s; model := model s; scaler := scaler s;
     feature_names := feature_names s;
     training_stats := training_stats s; disk := d |}.

(** A method call on the object a global holds.  On [None] the attribute
    lookup fails; a fitting method leaves the changed object in the
    global. *)
Definition call {Obj A} (global : State -> option Obj)
    (method : Obj -> except A) : M A :=
  fun s =>
    match global s with
    | Some obj => (s, method obj)
    | None => (s, Raise (Error "AttributeError"))
    end.

Definition call_fit {Obj A} (global : State -> option Obj)
    (set_global : option Obj -> State -> State)
    (method : Obj -> Obj * except A) : M A :=
  fun s =>
    match global s with
    | Some obj =>
        let (obj', result) := method obj in
        (set_global (Some obj') s, result)
    | None => (s, Raise (Error "AttributeError"))
    end.

(** [joblib.dump(obj, path)] and [joblib.load(path)]. *)
Definition dump_model : M unit :=
  modify (fun s =>
    set_disk {| model_pkl := model s;
                vectorizer_pkl := vectorizer_pkl (disk s);
                scaler_pkl := scaler_pkl (disk s) |} s).

Definition dump_vectorizer : M unit :=
  modify (fun s =>
    set_disk {| model_pkl := model_pkl (disk s);
                vectorizer_pkl := vectorizer s;
                scaler_pkl := scaler_pkl (disk s) |} s).

Definition dump_scaler : M unit :=
  modify (fun s =>
    set_disk {| model_pkl := model_pkl (disk s);
                vectorizer_pkl := vectorizer_pkl (disk s);
                scaler_pkl := scaler s |} s).

Definition load {Obj} (file : Disk -> option Obj) : M Obj :=
  fun s =>
    match file (disk s) with
    | Some obj => (s, Ok obj)
    | None => (s, Raise (Error "FileNotFoundError"))
    end.

(** [os.path.exists(path)]. *)
Definition path_exists {Obj} (file : Disk -> option Obj) (s : State)
    : bool :=
  match file (disk s) with Some _ => true | None => false end.

(** *** POST /train (lines 186-278), from the parsed records on *)

Record TrainResponse := {
  train_message : string;
  train_stats : option TrainingStats;
  model_accuracy : Q   (* shown as [{...:.2%}] *)
}.

Definition train (data : list record) : M TrainResponse :=
  try_except
    (let columns := df_columns data in
     (* Validate required column *)
     if negb (existsb (String.eqb "status") columns) then
       raise (HTTPException 400 StatusFieldMissing)
     else
     (* Validate status values *)
     let valid_statuses := isin_alive_dead (status_column data) in
     if negb (forallb (fun b => b) valid_statuses) then
       let invalid_count := length (List.filter negb valid_statuses) in
       raise (HTTPException 400 (InvalidStatusValues invalid_count))
     else
     (* Separate features and target *)
     let X := to_records (drop_status columns) data in
     let y := status_values data in
     (* Store feature names *)
     modify (set_feature_names (drop_status columns));;
     (* Vectorize features *)
     modify (set_vectorizer (Some DictVectorizer));;
     X_vect ← call_fit vectorizer set_vectorizer
                 (fun v => vectorizer_fit_transform v X);
     (* Scale features *)
     modify (set_scaler (Some StandardScaler));;
     X_scaled ← call_fit scaler set_scaler
                   (fun sc => scaler_fit_transform sc X_vect);
     (* Train model *)
     modify (set_model (Some (RandomForestClassifier 100 10 5 42)));;
     call_fit model set_model (fun m => forest_fit m X_scaled y);;
     (* Store training stats *)
     names ← gets feature_names;
     modify (set_training_stats
               (Some {| samples := length data;
                        features := length names;
                        stats_feature_names := names;
                        alive_count := count_label "alive" y;
                        dead_count := count_label "dead" y |}));;
     (* Save models *)
     dump_model;;
     dump_vectorizer;;
     dump_scaler;;
     stats ← gets training_stats;
     accuracy ← call model (fun m => forest_score m X_scaled y);
     ret {| train_message := "Training completed successfully";
            train_stats := stats;
            model_accuracy := accuracy |})
    (fun e => raise (HTTPException 500 (TrainingFailed e))).

(** *** POST /predict and /predict-json (lines 280-407), from the parsed
    observation on *)

Record Metrics := {
  provided_fields : list string;
  field_count : nat;
  probability_alive : Q;   (* prediction_probabilities["alive"] *)
  probability_dead : Q     (* prediction_probabilities["dead"] *)
}.

Record PredictionResponse := {
  astronomer_status : string;
  confidence : Q;
  risk_level : string;
  feedback : list Feedback.message;
  metrics : Metrics
}.

(** Lines 296-305: load the model if it is not in memory. *)
Definition load_model_if_needed : M unit :=
  m ← gets model;
  match m with
  | Some _ => ret tt
  | None =>
      model_file ← gets (path_exists model_pkl);
      if negb model_file then
        raise (HTTPException 400 ModelNotTrained)
      else
        m ← load model_pkl;
        modify (set_model (Some m));;
        v ← load vectorizer_pkl;
        modify (set_vectorizer (Some v));;
        sc ← load scaler_pkl;
        modify (set_scaler (Some sc))
  end.

(** [proba.max()]. *)
Definition proba_max (proba : list Q) : except Q :=
  match proba with
  | [] => Raise (Error "ValueError")
  | p :: rest => Ok (fold_left (fun m x => if x >? m then x else m) rest p)
  end.

(** Lines 319-340: the response, from the prediction and its row of
    probabilities. *)
Definition build_response (data : Observation) (pred : string)
    (proba : list Q) : except PredictionResponse :=
  bind_except (proba_max proba) (fun confidence =>
  (* Calculate risk level *)
  let risk_level := Risk.calculate_risk_level data pred confidence in
  (* Generate feedback *)
  let feedback := Feedback.generate_feedback data pred confidence in
  bind_except
    (if String.eqb pred "alive" then item proba 0 else item proba 1)
    (fun alive =>
  bind_except
    (if String.eqb pred "alive" then item proba 1 else item proba 0)
    (fun dead =>
  Ok {| astronomer_status := pred;
        confidence := confidence;
        risk_level := risk_level;
        feedback := feedback;
        metrics :=
          {| provided_fields := map fst (map_to_list data);
             field_count := size data;
             probability_alive := alive;
             probability_dead := dead |} |}))).

Definition predict (data : Observation) : M PredictionResponse :=
  (* Load model if not in memory *)
  load_model_if_needed;;
  try_except
    ((* Transform input *)
     X_new ← call vectorizer (fun v => vectorizer_transform v [data]);
     X_scaled ← call scaler (fun sc => scaler_transform sc X_new);
     (* Predict *)
     preds ← call model (fun m => forest_predict m X_scaled);
     pred ← lift (item preds 0);
     probas ← call model (fun m => forest_predict_proba m X_scaled);
     proba ← lift (item probas 0);
     lift (build_response data pred proba))
    (fun e => raise (HTTPException 500 (PredictionFailed e))).

(** The state after the three loads of lines 303-305. *)
Definition loaded (m : Forest) (v : Vectorizer) (sc : Scaler) (s : State)
    : State :=
  set_scaler (Some sc) (set_vectorizer (Some v) (set_model (Some m) s)).

(** The body of the [try] of [predict], as a function of the three
    objects the globals hold. *)
Definition answer (v : Vectorizer) (sc : Scaler) (m : Forest)
    (data : Observation) : except PredictionResponse :=
  bind_except (vectorizer_transform v [data]) (fun X_new =>
  bind_except (scaler_transform sc X_new) (fun X_scaled =>
  bind_except (forest_predict m X_scaled) (fun preds =>
  bind_except (item preds 0) (fun pred =>
  bind_except (forest_predict_proba m X_scaled) (fun probas =>
  bind_except (item probas 0) (fun proba =>
  build_response data pred proba)))))).

(** *** GET /model-info (lines 409-420) *)

Inductive ModelInfo :=
| NoModelTrained   (* {"message": "No model trained yet"} *)
| Info (model_type : string) (stats : option TrainingStats)
       (model_params : option Params) (names : list string).

Definition model_info (s : State) : except ModelInfo :=
  match model s with
  | None => Ok NoModelTrained
  | Some m =>
      bind_except (forest_bool m) (fun truthy =>
      Ok (Info "RandomForestClassifier" (training_stats s)
            (if truthy then Some (forest_get_params m) else None)
            (feature_names s)))
  end.

(** *** GET / and GET /health (lines 165-184) *)

(** [x is not None]. *)
Definition is_not_None {A} (x : option A) : bool :=
  match x with Some _ => true | None => false end.

Record RootResponse := {
  root_status : string;
  root_message : string;
  root_version : string;
  model_loaded : bool;
  endpoints : list string
}.

Definition root (s : State) : RootResponse :=
  {| root_status := "online";
     root_message := "Astronaut Survival AI API";
     root_version := "1.0.0";
     model_loaded := is_not_None (model s);
     endpoints :=
       ["/train"; "/predict"; "/predict-json"; "/model-info"; "/health"] |}.

Record HealthResponse := {
  health_status : string;
  model_trained : bool;
  features_count : nat;
  training_samples : nat
}.

Definition health (s : State) : HealthResponse :=
  {| health_status := "healthy";
     model_trained := is_not_None (model s);
     features_count :=
       match feature_names s with
       | [] => 0%nat
       | _ :: _ => length (feature_names s)
       end;
     training_samples :=
       match training_stats s with
       | Some stats => samples stats   (* training_stats.get("samples", 0) *)
       | None => 0%nat
       end |}.

End Endpoints.

End Api.

(** ** An executable instance of the library

    It runs the endpoints on concrete inputs.  The vectorizer and the scaler
    are those of [Sklearn], with exact arithmetic in place of floating point;
    the vectorizer covers the records whose features are all present and all
    numbers, and rejects a nested object with [TypeError] as DictVectorizer
    does.  The forest is the simplest one: every tree is a single leaf, so
    that it predicts the class frequencies of its training labels. *)
Module Reference.
Import Py Api.

Record forest := {
  hyperparameters : nat * nat * nat * nat;
  fitted : option (list string * list Q)   (* classes_ and probabilities *)
}.

(** The arithmetic of the instance is exact: nothing is rounded, the mean
    and the population variance ([ddof = 0]) are those of the rationals, and
    the square root is exact on squares and rounded down on the numerator
    otherwise.  On small integers, as in the runs below, floating point
    computes the same values. *)
Definition exact (q : Q) : Q := q.

Definition exact_sum (l : list Q) : Q := fold_right Qplus 0 l.

Definition exact_mean (col : list Q) : Q :=
  exact_sum col / inject_Z (Z.of_nat (length col)).

Definition exact_variance (col : list Q) : Q :=
  let m := exact_mean col in
  exact_mean (map (fun x => (x - m) * (x - m)) col).

Definition Qsqrt (q : Q) : Q :=
  Qmake (Z.sqrt (Qnum q * Zpos (Qden q))) (Qden q).

(** Only a scale of 0 marks a constant feature. *)
Definition zero_scale_only (var mean : Q) (n_samples : nat) : bool := false.

Fixpoint numeric_row (r : row) : except Observation :=
  match r with
  | [] => Ok ∅
  | (name, Some (JNum v)) :: r' =>
      bind_except (numeric_row r') (fun x =>
      Ok (if contains x name then x else <[name := v]> x))
  | (_, Some JObject) :: _ => Raise (Error "TypeError")
  | (_, Some (JStr _)) :: _ => Raise (Error "NotImplementedError")
  | (_, None) :: _ => Raise (Error "NotImplementedError")
  end.

Fixpoint numeric_rows (X : list row) : except (list Observation) :=
  match X with
  | [] => Ok []
  | r :: X' =>
      bind_except (numeric_row r) (fun x =>
      bind_except (numeric_rows X') (fun rest => Ok (x :: rest)))
  end.

Definition fit_transform_rows (v : option (list string)) (X : list row)
    : option (list string) * except Sklearn.matrix :=
  match numeric_rows X with
  | Ok observations =>
      let vocabulary := Sklearn.fit_vocabulary observations in
      match Sklearn.vectorizer_transform exact vocabulary observations with
      | Ok X_vect => (Some vocabulary, Ok X_vect)
      | Raise e => (v, Raise e)
      end
  | Raise e => (v, Raise e)
  end.

Definition transform_observations (v : option (list string))
    (X : list Observation) : except Sklearn.matrix :=
  match v with
  | Some vocabulary => Sklearn.vectorizer_transform exact vocabulary X
  | None => Raise (Error "NotFittedError")
  end.

Definition fit_transform_scaler (sc : option Sklearn.scaler_stats)
    (X : Sklearn.matrix)
    : option Sklearn.scaler_stats * except Sklearn.matrix :=
  match Sklearn.scaler_fit exact_mean exact_variance Qsqrt zero_scale_only X
  with
  | Ok stats => (Some stats, Sklearn.scaler_transform exact stats X)
  | Raise e => (sc, Raise e)
  end.

Definition transform_scaler (sc : option Sklearn.scaler_stats)
    (X : Sklearn.matrix) : except Sklearn.matrix :=
  match sc with
  | Some stats => Sklearn.scaler_transform exact stats X
  | None => Raise (Error "NotFittedError")
  end.

Definition frequency (y : list string) (label : string) : Q :=
  inject_Z (Z.of_nat (count_label label y)) /
  inject_Z (Z.of_nat (length y)).

Definition fit_forest (f : forest) (X : Sklearn.matrix) (y : list string)
    : forest * except unit :=
  match y with
  | [] => (f, Raise (Error "ValueError"))
  | _ :: _ =>
      let classes := fold_right Sklearn.insert_name [] y in
      ({| hyperparameters := hyperparameters f;
          fitted := Some (classes, map (frequency y) classes) |}, Ok tt)
  end.

Definition predict_proba_forest (f : forest) (X : Sklearn.matrix)
    : except (list (list Q)) :=
  match fitted f with
  | Some (_, proba) => Ok (map (fun _ => proba) X)
  | None => Raise (Error "NotFittedError")
  end.

Definition predict_forest (f : forest) (X : Sklearn.matrix)
    : except (list string) :=
  match fitted f with
  | Some (classes, proba) =>
      bind_except (Sklearn.vote classes proba) (fun label =>
      Ok (map (fun _ => label) X))
  | None => Raise (Error "NotFittedError")
  end.

Definition score_forest (f : forest) (X : Sklearn.matrix) (y : list string)
    : except Q :=
  bind_except (predict_forest f X) (fun preds =>
  match preds with
  | [] => Raise (Error "ValueError")
  | label :: _ => Ok (frequency y label)
  end).

Definition bool_forest (f : forest) : except bool :=
  match fitted f with
  | Some _ => Ok true
  | None => Raise (Error "AttributeError")
  end.

#[export] Instance library : Library := {|
  Matrix := Sklearn.matrix;
  Vectorizer := option (list string);
  Scaler := option Sklearn.scaler_stats;
  Forest := forest;
  Params := nat * nat * nat * nat;
  DictVectorizer := None;
  StandardScaler := None;
  RandomForestClassifier := fun n_estimators max_depth min_samples_split
                                random_state =>
    {| hyperparameters :=
         (n_estimators, max_depth, min_samples_split, random_state);
       fitted := None |};
  vectorizer_fit_transform := fit_transform_rows;
  vectorizer_transform := transform_observations;
  scaler_fit_transform := fit_transform_scaler;
  scaler_transform := transform_scaler;
  forest_fit := fit_forest;
  forest_predict := predict_forest;
  forest_predict_proba := predict_proba_forest;
  forest_score := score_forest;
  forest_bool := bool_forest;
  forest_get_params := hyperparameters
|}.

(** A training file with one sample of each class, and one whose feature
    is a nested object. *)
Definition two_samples : list record :=
  [ [("oxygen_level", JNum 20); ("co2_level", JNum 0.4);
     ("status", JStr "alive")];
    [("oxygen_level", JNum 15); ("co2_level", JNum 2.0);
     ("status", JStr "dead")] ].

Definition nested_sample : list record :=
  [ [("suit", JObject); ("status", JStr "alive")] ].

Definition unknown_status : list record :=
  [ [("oxygen_level", JNum 20); ("status", JStr "alive")];
    [("oxygen_level", JNum 15); ("status", JStr "unknown")] ].

(** The state after a first successful training on [two_samples]. *)
Definition trained : State :=
  fst (train two_samples (fresh_process no_files)).

(** A fresh process started over the files this training left. *)
Definition restarted : State := fresh_process (disk trained).

Definition reading : Observation :=
  <["oxygen_level" := 19.5]> (<["co2_level" := 0.4]> ∅).

(** A reading whose oxygen level is the integer [10^400], beyond every
    float64. *)
Definition huge_reading : Observation :=
  <["oxygen_level" := inject_Z (10 ^ 400)]> reading.

(** A fresh process over a disk that only holds the model file. *)
Definition model_file_only : State :=
  fresh_process {| model_pkl := model_pkl (disk trained);
                   vectorizer_pkl := None;
                   scaler_pkl := None |}.

(** A reading with its temperature, and one with a field the code does not
    know. *)
Definition warm_reading : Observation := <["temperature" := 22]> reading.

Definition tagged_reading : Observation := <["crew_size" := 4]> reading.

End Reference.

(** * Properties *)

(** ** The comparisons *)

Lemma ltb_lt x y : (x <? y) = true <-> x < y.
Proof.
  unfold Py.ltb. rewrite negb_true_iff, <- not_true_iff_false, Qle_bool_iff.
  split; intros H; [apply Qnot_le_lt | apply Qlt_not_le]; exact H.
Qed.

Lemma ltb_ge x y : (x <? y) = false <-> y <= x.
Proof. unfold Py.ltb. rewrite negb_false_iff. apply Qle_bool_iff. Qed.

Lemma gtb_gt x y : (x >? y) = true <-> y < x.
Proof. apply ltb_lt. Qed.

Lemma gtb_le x y : (x >? y) = false <-> x <= y.
Proof. apply ltb_ge. Qed.

(** Turns every comparison of the goal into its order fact. *)
Ltac q_cases :=
  repeat match goal with
  | |- context [Py.gtb ?x ?y] =>
      let E := fresh "E" in
      destruct (Py.gtb x y) eqn:E;
      [apply gtb_gt in E | apply gtb_le in E]
  | |- context [Py.ltb ?x ?y] =>
      let E := fresh "E" in
      destruct (Py.ltb x y) eqn:E;
      [apply ltb_lt in E | apply ltb_ge in E]
  | |- context [Qle_bool ?x ?y] =>
      let E := fresh "E" in
      destruct (Qle_bool x y) eqn:E;
      [apply Qle_bool_iff in E
      | apply not_true_iff_false in E; rewrite Qle_bool_iff in E;
        apply Qnot_le_lt in E]
  end.

(** ** Properties of the Risk Scorer *)

(** The two oxygen rows of the table never fire together, and together they
    are the [if]/[elif] of the source. *)
Lemma oxygen_rows (o2 : Q) :
  (if (o2 <? 18) || (o2 >? 25) then 3%Z
   else if (o2 <? 19.5) || (o2 >? 23.5) then 1%Z else 0%Z) =
  Z.add (if (o2 <? 18) || (o2 >? 25) then 3%Z else 0%Z)
        (if (Qle_bool 18 o2 && (o2 <? 19.5)) || ((o2 >? 23.5) && Qle_bool o2 25)
         then 1%Z else 0%Z).
Proof.
  q_cases; simpl; try reflexivity; exfalso; lra.
Qed.

Ltac split_ifs :=
  repeat match goal with
         | |- context [if ?b then _ else _] => destruct b
         end.

Lemma risk_score_table (data : Observation) :
  Risk.risk_score data = Risk.spec_score data.
Proof.
  unfold Risk.risk_score, Risk.spec_score, Risk.spec_rules, Risk.contribution.
  cbn [fold_right Risk.field Risk.fires Risk.delta].
  destruct (data !! "co2_level") as [co2|];
    destruct (data !! "radiation") as [rad|];
    destruct (data !! "food_supply_days") as [food|];
    destruct (data !! "water_supply_days") as [water|];
    (destruct (data !! "oxygen_level") as [o2|];
     [ pose proof (oxygen_rows o2) as Hox; revert Hox | ]);
    split_ifs; lia.
Qed.

(** C1. For every observation and predicted label: the label "dead" gives
    CRITICAL whatever the score; otherwise the score accumulated by the code,
    which is the sum of the rows of the table whose field is present and
    whose condition holds, gives HIGH from 5 on, MEDIUM in [2,5) and LOW
    below 2. *)
Theorem calculate_risk_level_table
    (data : Observation) (status : string) (confidence : Q) :
  let level := Risk.calculate_risk_level data status confidence in
  let score := Risk.spec_score data in
  Risk.risk_score data = score /\
  (status = "dead" -> level = "CRITICAL") /\
  (status <> "dead" -> (5 <= score)%Z -> level = "HIGH") /\
  (status <> "dead" -> (2 <= score < 5)%Z -> level = "MEDIUM") /\
  (status <> "dead" -> (score < 2)%Z -> level = "LOW").
Proof.
  cbv zeta. unfold Risk.calculate_risk_level.
  rewrite <- risk_score_table.
  split; [reflexivity|].
  destruct (String.eqb_spec status "dead") as [Hd|Hd].
  - repeat split; intros; congruence.
  - destruct (Z.leb_spec 5 (Risk.risk_score data));
      destruct (Z.leb_spec 2 (Risk.risk_score data));
      repeat split; intros; try reflexivity; try congruence; lia.
Qed.

(** The worked example of section 8 does not hold of the code: with the
    label "alive" the score 3 falls in [2,5), which is MEDIUM, not HIGH. *)
Lemma low_oxygen_alive_not_high :
  ~ (Risk.risk_score Risk.low_oxygen = 3%Z /\
     Risk.calculate_risk_level Risk.low_oxygen "alive" 1 = "HIGH" /\
     Risk.calculate_risk_level Risk.low_oxygen "dead" 1 = "CRITICAL").
Proof.
  intros (_ & H & _). vm_compute in H. discriminate H.
Qed.

(** C2 (amended). For the observation {oxygen_level: 15, co2_level: 0.3} the
    code accumulates the score 3; with the label "alive" it returns MEDIUM,
    with the label "dead" it returns CRITICAL, whatever the confidence. *)
Theorem low_oxygen_risk (confidence : Q) :
  Risk.risk_score Risk.low_oxygen = 3%Z /\
  Risk.calculate_risk_level Risk.low_oxygen "alive" confidence = "MEDIUM" /\
  Risk.calculate_risk_level Risk.low_oxygen "dead" confidence = "CRITICAL".
Proof.
  repeat split; vm_compute; reflexivity.
Qed.

(** ** Properties of the Feedback Generator *)

(** The overall-status line is always appended, and always last. *)
Lemma generate_feedback_snoc (data : Observation) status confidence :
  Feedback.generate_feedback data status confidence =
  Feedback.field_feedback data ++ [Feedback.overall_status status confidence].
Proof.
  unfold Feedback.generate_feedback. cbv zeta.
  destruct (Feedback.field_feedback data); reflexivity.
Qed.

(** C6. For every observation the last line of the feedback is the
    overall-status line; it reads STABLE exactly when the label is "alive"
    and the confidence exceeds 0.8, MARGINAL exactly when the label is
    "alive" and the confidence is at most 0.8, and CRITICAL for every other
    label, so whenever the label is "dead", whatever the confidence. *)
Theorem overall_status_line (data : Observation) (status : string)
    (confidence : Q) :
  let line := Feedback.overall_status status confidence in
  last (Feedback.generate_feedback data status confidence) = Some line /\
  (Feedback.mentions "STABLE" line = true <->
     status = "alive" /\ 0.8 < confidence) /\
  (Feedback.mentions "MARGINAL" line = true <->
     status = "alive" /\ confidence <= 0.8) /\
  (Feedback.mentions "CRITICAL" line = true <-> status <> "alive") /\
  (status = "dead" -> Feedback.mentions "CRITICAL" line = true).
Proof.
  cbv zeta. split.
  { rewrite generate_feedback_snoc. apply last_snoc. }
  unfold Feedback.overall_status.
  destruct (String.eqb_spec status "alive") as [Ha|Ha];
    destruct (confidence >? 0.8) eqn:E;
    [apply gtb_gt in E | apply gtb_le in E
    | apply gtb_gt in E | apply gtb_le in E];
    cbn [andb]; repeat split;
    try (intros H; vm_compute in H; discriminate H);
    try (intros [H1 H2]; first [contradiction | exfalso; lra]);
    try (intros; subst; first [discriminate | vm_compute; reflexivity]);
    try assumption;
    try (intros H; exfalso; apply H; exact Ha);
    try (intros _; exact Ha).
Qed.

(** Every block appends at most one message, made of three pieces. *)
Ltac block_pieces :=
  intros Hf;
  repeat match goal with
         | |- Forall _ (match ?x with _ => _ end) => destruct x
         | |- Forall _ (_ ++ [_]) =>
             apply Forall_app; split; [exact Hf | repeat constructor]
         | |- Forall _ _ => exact Hf
         end.

Lemma field_feedback_pieces (data : Observation) :
  Forall Feedback.three_pieces (Feedback.field_feedback data).
Proof.
  unfold Feedback.field_feedback. cbv zeta.
  assert (H0 : Forall Feedback.three_pieces ([] : list Feedback.message))
    by constructor.
  revert H0. generalize ([] : list Feedback.message). intros l0 H0.
  assert (H1 : Forall Feedback.three_pieces (Feedback.oxygen_analysis data l0)).
  { revert H0. unfold Feedback.oxygen_analysis. block_pieces. }
  revert H1. generalize (Feedback.oxygen_analysis data l0). intros l1 H1.
  assert (H2 : Forall Feedback.three_pieces (Feedback.co2_analysis data l1)).
  { revert H1. unfold Feedback.co2_analysis. block_pieces. }
  revert H2. generalize (Feedback.co2_analysis data l1). intros l2 H2.
  assert (H3 : Forall Feedback.three_pieces (Feedback.temperature_analysis data l2)).
  { revert H2. unfold Feedback.temperature_analysis. cbv zeta.
    block_pieces. }
  revert H3. generalize (Feedback.temperature_analysis data l2).
  intros l3 H3.
  assert (H4 : Forall Feedback.three_pieces (Feedback.humidity_analysis data l3)).
  { revert H3. unfold Feedback.humidity_analysis. block_pieces. }
  revert H4. generalize (Feedback.humidity_analysis data l3). intros l4 H4.
  assert (H5 : Forall Feedback.three_pieces (Feedback.radiation_analysis data l4)).
  { revert H4. unfold Feedback.radiation_analysis. block_pieces. }
  revert H5. generalize (Feedback.radiation_analysis data l4). intros l5 H5.
  assert (H6 : Forall Feedback.three_pieces (Feedback.food_analysis data l5)).
  { revert H5. unfold Feedback.food_analysis. block_pieces. }
  revert H6. generalize (Feedback.food_analysis data l5). intros l6 H6.
  revert H6. unfold Feedback.water_analysis. block_pieces.
Qed.

(** Without any recognized field no block appends anything. *)
Lemma field_feedback_nil (data : Observation) :
  Feedback.no_recognized_field data = true ->
  Feedback.field_feedback data = [].
Proof.
  unfold Feedback.no_recognized_field, Feedback.recognized_fields, Py.contains.
  cbn [forallb]. rewrite !andb_true_iff, !negb_true_iff.
  intros (Ho & Hc & Ht & Hh & Hu & Hr & Hf & Hw & _).
  destruct (data !! "oxygen_level") eqn:Eo; [discriminate|].
  destruct (data !! "co2_level") eqn:Ec; [discriminate|].
  destruct (data !! "temperature") eqn:Et; [discriminate|].
  destruct (data !! "heat") eqn:Eh; [discriminate|].
  destruct (data !! "humidity") eqn:Eu; [discriminate|].
  destruct (data !! "radiation") eqn:Er; [discriminate|].
  destruct (data !! "food_supply_days") eqn:Ef; [discriminate|].
  destruct (data !! "water_supply_days") eqn:Ew; [discriminate|].
  unfold Feedback.field_feedback. cbv zeta.
  unfold Feedback.oxygen_analysis. rewrite Eo.
  unfold Feedback.co2_analysis. rewrite Ec.
  unfold Feedback.temperature_analysis, Py.contains. rewrite Et, Eh.
  unfold Feedback.humidity_analysis. rewrite Eu.
  unfold Feedback.radiation_analysis. rewrite Er.
  unfold Feedback.food_analysis. rewrite Ef.
  unfold Feedback.water_analysis. rewrite Ew.
  reflexivity.
Qed.

(** The placeholder of section 4.5 is not what the code returns: an
    observation without any recognized field gets the overall-status line. *)
Lemma empty_observation_no_placeholder :
  Feedback.no_recognized_field ∅ = true /\
  Feedback.generate_feedback ∅ "alive" 0.9 <> [Feedback.placeholder].
Proof.
  split; [vm_compute; reflexivity|].
  intros H. vm_compute in H. discriminate H.
Qed.

(** C8 (amended). For every observation without any recognized field the
    feedback is the single overall-status line; for every observation the
    feedback is non-empty, and the placeholder is none of its messages. *)
Theorem feedback_never_empty (data : Observation) (status : string)
    (confidence : Q) :
  (Feedback.no_recognized_field data = true ->
   Feedback.generate_feedback data status confidence =
   [Feedback.overall_status status confidence]) /\
  Feedback.generate_feedback data status confidence <> [] /\
  ~ In Feedback.placeholder
       (Feedback.generate_feedback data status confidence).
Proof.
  rewrite generate_feedback_snoc. repeat split.
  - intros H. rewrite (field_feedback_nil data H). reflexivity.
  - intros H. apply app_eq_nil in H. destruct H as [_ H]. discriminate H.
  - intros H. apply in_app_or in H. destruct H as [H|[H|[]]].
    + pose proof (field_feedback_pieces data) as Hp.
      rewrite Forall_forall in Hp. apply list_elem_of_In in H.
      specialize (Hp _ H). discriminate Hp.
    + unfold Feedback.overall_status in H.
      destruct (_ && _); [|destruct (String.eqb _ _)]; discriminate H.
Qed.

Lemma feedback_never_empty_witness :
  Feedback.generate_feedback ∅ "alive" 0.9 =
  [Feedback.overall_status "alive" 0.9].
Proof.
  apply (feedback_never_empty ∅ "alive" 0.9). vm_compute. reflexivity.
Defined.

(** ** Properties of the Feature Encoder *)

(** A value below the overflow bound is converted, and rounded. *)
Lemma to_float64_in_range (round : Q -> Q) (v : Q) :
  Qabs v < Sklearn.float64_overflow ->
  Sklearn.to_float64 round v = Py.Ok (round v).
Proof.
  intros H. unfold Sklearn.to_float64.
  destruct (Qle_bool Sklearn.float64_overflow (Qabs v)) eqn:E;
    [|reflexivity].
  apply Qle_bool_iff in E. exfalso. apply (Qlt_not_le _ _ H E).
Qed.

Lemma transform_one_in_range (round : Q -> Q) (vocabulary : list string)
    (x : Observation) :
  (forall name v, In name vocabulary -> x !! name = Some v ->
     Qabs v < Sklearn.float64_overflow) ->
  exists vec,
    Sklearn.transform_one round vocabulary x = Py.Ok vec /\
    length vec = length vocabulary /\
    forall i name,
      vocabulary !! i = Some name ->
      vec !! i = Some (match x !! name with Some v => round v | None => 0 end).
Proof.
  induction vocabulary as [|n names IH]; intros Hr.
  - exists []. repeat split. intros i name H. destruct i; discriminate H.
  - destruct IH as (vec & Hv & Hl & Hs).
    { intros name v Hn. apply Hr. right. exact Hn. }
    cbn [Sklearn.transform_one]. rewrite Hv.
    destruct (x !! n) as [v|] eqn:En.
    + rewrite (to_float64_in_range round v)
        by (apply (Hr n v); [left; reflexivity | exact En]).
      exists (round v :: vec). cbn [Py.bind_except length].
      split; [reflexivity|]. split; [congruence|].
      intros [|i] name H.
      * injection H as <-. rewrite En. reflexivity.
      * apply Hs, H.
    + exists (0 :: vec). cbn [Py.bind_except length].
      split; [reflexivity|]. split; [congruence|].
      intros [|i] name H.
      * injection H as <-. rewrite En. reflexivity.
      * apply Hs, H.
Qed.

(** A key outside the vocabulary is not looked at, whatever its value. *)
Lemma transform_one_ignores (round : Q -> Q) (vocabulary : list string)
    (x : Observation) (name : string) (v : Q) :
  ~ In name vocabulary ->
  Sklearn.transform_one round vocabulary (<[name := v]> x) =
  Sklearn.transform_one round vocabulary x.
Proof.
  induction vocabulary as [|n names IH]; intros Hn; [reflexivity|].
  cbn [Sklearn.transform_one].
  rewrite IH by (intros H; apply Hn; right; exact H).
  rewrite lookup_insert_ne by (intros ->; apply Hn; left; reflexivity).
  reflexivity.
Qed.

(** A value of the vocabulary beyond the float64 range stops the encoder. *)
Lemma transform_one_overflow (round : Q -> Q) (vocabulary : list string)
    (x : Observation) (name : string) (v : Q) :
  In name vocabulary ->
  x !! name = Some v ->
  Sklearn.float64_overflow <= Qabs v ->
  exists e, Sklearn.transform_one round vocabulary x = Py.Raise e.
Proof.
  intros Hn Hx Hv. induction vocabulary as [|n names IH]; [destruct Hn|].
  cbn [Sklearn.transform_one].
  destruct (String.eqb_spec n name) as [->|Hne].
  - rewrite Hx. unfold Sklearn.to_float64.
    apply Qle_bool_iff in Hv. rewrite Hv. eexists. reflexivity.
  - destruct Hn as [Hn|Hn]; [contradiction|].
    destruct (IH Hn) as (e & ->).
    destruct (match x !! n with
              | Some v0 => Sklearn.to_float64 round v0
              | None => Py.Ok 0
              end); eexists; reflexivity.
Qed.




(** ** Properties of the Feature Normalizer *)

Lemma handle_zeros_nonzero (scale : Q) (constant_mask : bool) :
  Qeq_bool (Sklearn.handle_zeros_in_scale scale constant_mask) 0 = false.
Proof.
  unfold Sklearn.handle_zeros_in_scale.
  destruct (Qeq_bool scale 0) eqn:E; [reflexivity|].
  destruct constant_mask; [reflexivity | exact E].
Qed.

Lemma handle_zeros_of_constant (scale : Q) (constant_mask : bool) :
  scale == 0 \/ constant_mask = true ->
  Sklearn.handle_zeros_in_scale scale constant_mask = 1.
Proof.
  intros [H| ->]; unfold Sklearn.handle_zeros_in_scale.
  - apply Qeq_bool_iff in H. rewrite H. reflexivity.
  - rewrite orb_true_r. reflexivity.
Qed.

(** With scales that are not 0 the row is scaled entry by entry, and no
    division fails. *)
Lemma scale_row_ok (round : Q -> Q) (x means scales : list Q) :
  length x = length means ->
  length x = length scales ->
  Forall (fun s => Qeq_bool s 0 = false) scales ->
  exists v,
    Sklearn.scale_row round x means scales = Py.Ok v /\
    length v = length x /\
    forall j, (j < length x)%nat ->
      nth j v 0 = round (round (nth j x 0 - nth j means 0) / nth j scales 0).
Proof.
  revert means scales.
  induction x as [|xi x IH]; intros [|m means] [|s scales] Hm Hs Hz;
    try discriminate.
  - exists []. repeat split. intros j Hj. inversion Hj.
  - inversion Hz as [|? ? Hs0 Hz']; subst.
    destruct (IH means scales) as (v & Hv & Hl & Hn);
      [simpl in Hm; lia | simpl in Hs; lia | exact Hz' |].
    exists (round (round (xi - m) / s) :: v). simpl.
    unfold Sklearn.scale_entry. rewrite Hs0. simpl. rewrite Hv. simpl.
    repeat split; [lia|].
    intros [|j] Hj; [reflexivity|]. apply Hn. lia.
Qed.

Lemma fit_stats (column_mean column_var : list Q -> Q) (sqrt : Q -> Q)
    (is_constant_feature : Q -> Q -> nat -> bool) (X : Sklearn.matrix)
    (stats : Sklearn.scaler_stats) :
  Sklearn.scaler_fit column_mean column_var sqrt is_constant_feature X =
    Py.Ok stats ->
  X <> [] /\
  length (Sklearn.mean_ stats) = Sklearn.n_features X /\
  length (Sklearn.scale_ stats) = Sklearn.n_features X /\
  Forall (fun s => Qeq_bool s 0 = false) (Sklearn.scale_ stats) /\
  forall j, (j < Sklearn.n_features X)%nat ->
    nth j (Sklearn.mean_ stats) 0 = column_mean (Sklearn.column X j) /\
    nth j (Sklearn.scale_ stats) 0 =
      Sklearn.handle_zeros_in_scale
        (Sklearn.std column_var sqrt (Sklearn.column X j))
        (Sklearn.constant_mask column_mean column_var is_constant_feature
           X (Sklearn.column X j)).
Proof.
  unfold Sklearn.scaler_fit. destruct X as [|row X]; [discriminate|].
  intros H. injection H as <-. cbn [Sklearn.mean_ Sklearn.scale_].
  split; [discriminate|]. rewrite !length_map, length_seq.
  repeat split.
  - apply Forall_forall. intros s Hs. apply list_elem_of_In in Hs.
    apply in_map_iff in Hs. destruct Hs as (col & <- & _).
    apply handle_zeros_nonzero.
  - rewrite map_map.
    rewrite (nth_indep _ 0 (column_mean (Sklearn.column (row :: X) 0)))
      by (rewrite length_map, length_seq; exact H).
    rewrite (map_nth (fun j => column_mean (Sklearn.column (row :: X) j))).
    rewrite seq_nth by exact H. reflexivity.
  - rewrite map_map.
    set (f := fun j =>
                Sklearn.handle_zeros_in_scale
                  (Sklearn.std column_var sqrt (Sklearn.column (row :: X) j))
                  (Sklearn.constant_mask column_mean column_var
                     is_constant_feature (row :: X)
                     (Sklearn.column (row :: X) j))).
    rewrite (nth_indep _ 0 (f 0%nat))
      by (rewrite length_map, length_seq; exact H).
    rewrite (map_nth f). rewrite seq_nth by exact H. reflexivity.
Qed.

(** The degenerate-feature policy of section 4.2 is not the one of the
    library's scaler: fitted on a column that is 5 in every row, it maps the
    input 7 to 2.  The numbers are small integers: nothing is rounded. *)
Lemma constant_column_not_zero :
  exists stats v,
    Sklearn.scaler_fit Reference.exact_mean Reference.exact_variance
      Reference.Qsqrt Reference.zero_scale_only [[5]; [5]] = Py.Ok stats /\
    Sklearn.std Reference.exact_variance Reference.Qsqrt
      (Sklearn.column [[5]; [5]] 0) == 0 /\
    Sklearn.scaler_transform_one Reference.exact stats [7] = Py.Ok v /\
    nth 0 v 0 == 2 /\
    ~ nth 0 v 0 == 0.
Proof.
  eexists. eexists. split; [reflexivity|].
  split; [vm_compute; reflexivity|].
  split; [vm_compute; reflexivity|].
  split; [vm_compute; reflexivity|].
  vm_compute. discriminate.
Qed.

(** C3 (amended). For every feature column that the scaler takes as
    constant over the training matrix (its standard deviation is 0, or the
    library finds its variance within rounding error of 0), the fitted scale
    is 1 and the fitted mean is the library's mean of the column: the
    Normalizer maps the entry [x] of every input vector of the fitted width
    to the float64 difference between [x] and that mean, divided by 1,
    rather than to 0, and transforming such a vector never divides by
    zero. *)
Theorem zero_std_column_is_centred (round : Q -> Q)
    (column_mean column_var : list Q -> Q) (sqrt : Q -> Q)
    (is_constant_feature : Q -> Q -> nat -> bool) (X : Sklearn.matrix)
    (stats : Sklearn.scaler_stats) (x : Sklearn.vector) (j : nat) :
  Sklearn.scaler_fit column_mean column_var sqrt is_constant_feature X =
    Py.Ok stats ->
  length x = Sklearn.n_features X ->
  (j < Sklearn.n_features X)%nat ->
  Sklearn.std column_var sqrt (Sklearn.column X j) == 0 \/
  Sklearn.constant_mask column_mean column_var is_constant_feature X
    (Sklearn.column X j) = true ->
  exists v,
    Sklearn.scaler_transform_one round stats x = Py.Ok v /\
    length v = length x /\
    nth j (Sklearn.scale_ stats) 0 = 1 /\
    nth j (Sklearn.mean_ stats) 0 = column_mean (Sklearn.column X j) /\
    nth j v 0 =
      round (round (nth j x 0 - column_mean (Sklearn.column X j)) / 1) /\
    ((forall a b, a == b -> round a == round b) ->
     (forall a, round (round a) == round a) ->
     nth j v 0 == round (nth j x 0 - column_mean (Sklearn.column X j))).
Proof.
  intros Hfit Hx Hj Hconst.
  destruct (fit_stats _ _ _ _ X stats Hfit) as (Hne & Hlm & Hls & Hnz & Hnth).
  destruct (scale_row_ok round x (Sklearn.mean_ stats) (Sklearn.scale_ stats))
    as (v & Hv & Hlen & Hval); [congruence | congruence | exact Hnz |].
  destruct (Hnth j Hj) as [Hm Hs].
  rewrite (handle_zeros_of_constant _ _ Hconst) in Hs.
  assert (Hjv : nth j v 0 =
                round (round (nth j x 0 - column_mean (Sklearn.column X j))
                       / 1)).
  { rewrite Hval by lia. rewrite Hm, Hs. reflexivity. }
  exists v. repeat split; try assumption.
  intros Hproper Hidem. rewrite Hjv.
  rewrite (Hproper _ (round (nth j x 0 - column_mean (Sklearn.column X j))))
    by field.
  apply Hidem.
Qed.

Lemma zero_std_column_is_centred_witness :
  exists stats,
    Sklearn.scaler_fit Reference.exact_mean Reference.exact_variance
      Reference.Qsqrt Reference.zero_scale_only [[5]; [5]] = Py.Ok stats /\
    exists v,
      Sklearn.scaler_transform_one Reference.exact stats [7] = Py.Ok v /\
      length v = length [7 : Q] /\
      nth 0 (Sklearn.scale_ stats) 0 = 1 /\
      nth 0 (Sklearn.mean_ stats) 0 =
        Reference.exact_mean (Sklearn.column [[5]; [5]] 0) /\
      nth 0 v 0 =
        Reference.exact
          (Reference.exact
             (nth 0 [7] 0 -
              Reference.exact_mean (Sklearn.column [[5]; [5]] 0)) / 1) /\
      ((forall a b, a == b -> Reference.exact a == Reference.exact b) ->
       (forall a, Reference.exact (Reference.exact a) == Reference.exact a) ->
       nth 0 v 0 ==
         Reference.exact
           (nth 0 [7] 0 -
            Reference.exact_mean (Sklearn.column [[5]; [5]] 0))).
Proof.
  eexists. split; [reflexivity|].
  apply (zero_std_column_is_centred Reference.exact Reference.exact_mean
           Reference.exact_variance Reference.Qsqrt Reference.zero_scale_only
           [[5]; [5]] _ [7] 0%nat).
  - reflexivity.
  - reflexivity.
  - simpl. lia.
  - left. vm_compute. reflexivity.
Defined.

(** ** Properties of the endpoints *)

Section EndpointProperties.

Import Py Api.
Context {L : Library}.

(** The three outcomes of lines 296-305. *)
Lemma load_resident (s : State) (m : Forest) :
  model s = Some m -> load_model_if_needed s = (s, Ok tt).
Proof.
  intros Hm.
  unfold load_model_if_needed, mbind, M_bind, bind, gets, ret.
  rewrite Hm. reflexivity.
Qed.

Lemma load_untrained (s : State) :
  model s = None ->
  model_pkl (disk s) = None ->
  load_model_if_needed s = (s, Raise (HTTPException 400 ModelNotTrained)).
Proof.
  intros Hm Hf.
  unfold load_model_if_needed, mbind, M_bind, bind, gets, path_exists,
    raise.
  rewrite Hm, Hf. reflexivity.
Qed.

Lemma load_snapshot (s : State) (m : Forest) (v : Vectorizer)
    (sc : Scaler) :
  model s = None ->
  model_pkl (disk s) = Some m ->
  vectorizer_pkl (disk s) = Some v ->
  scaler_pkl (disk s) = Some sc ->
  load_model_if_needed s = (loaded m v sc s, Ok tt).
Proof.
  intros Hm Hfm Hfv Hfs.
  unfold load_model_if_needed, mbind, M_bind, bind, gets, path_exists, load,
    modify, raise.
  rewrite Hm, Hfm. cbn. rewrite Hfm. cbn. rewrite Hfv. cbn. rewrite Hfs.
  reflexivity.
Qed.

(** With the three globals set, the [try] of [predict] is [answer] on
    them, and its failures come back as status 500. *)
Lemma predict_resident (data : Observation) (s : State)
    (v : Vectorizer) (sc : Scaler) (m : Forest) :
  vectorizer s = Some v -> scaler s = Some sc -> model s = Some m ->
  predict data s =
  (s, match answer v sc m data with
      | Ok r => Ok r
      | Raise e => Raise (HTTPException 500 (PredictionFailed e))
      end).
Proof.
  intros Hv Hsc Hm.
  unfold predict, mbind, M_bind, bind. rewrite (load_resident s m Hm).
  unfold try_except, answer, call, lift, raise. cbn beta.
  rewrite Hv.
  destruct (vectorizer_transform v [data]) as [X_new|e]; [|reflexivity].
  cbn [bind_except]. rewrite Hsc.
  destruct (scaler_transform sc X_new) as [X_scaled|e]; [|reflexivity].
  cbn [bind_except]. rewrite Hm.
  destruct (forest_predict m X_scaled) as [preds|e]; [|reflexivity].
  cbn [bind_except].
  destruct (item preds 0) as [pred|e]; [|reflexivity].
  cbn [bind_except]. rewrite Hm.
  destruct (forest_predict_proba m X_scaled) as [probas|e]; [|reflexivity].
  cbn [bind_except].
  destruct (item probas 0) as [proba|e]; [|reflexivity].
  cbn [bind_except].
  destruct (build_response data pred proba); reflexivity.
Qed.

Lemma predict_loads (data : Observation) (s : State)
    (v : Vectorizer) (sc : Scaler) (m : Forest) :
  model s = None ->
  model_pkl (disk s) = Some m ->
  vectorizer_pkl (disk s) = Some v ->
  scaler_pkl (disk s) = Some sc ->
  predict data s = predict data (loaded m v sc s).
Proof.
  intros Hm Hfm Hfv Hfs.
  unfold predict, mbind, M_bind, bind.
  rewrite (load_snapshot s m v sc Hm Hfm Hfv Hfs).
  rewrite (load_resident (loaded m v sc s) m); reflexivity.
Qed.

(** C9. If no model is in memory and the model file does not exist, every
    call to predict fails with status 400, "Model not trained yet", and
    leaves the state as it was. *)
Theorem predict_before_training (data : Observation) (s : State) :
  model s = None ->
  model_pkl (disk s) = None ->
  predict data s = (s, Raise (HTTPException 400 ModelNotTrained)).
Proof.
  intros Hm Hf. unfold predict, mbind, M_bind, bind.
  rewrite (load_untrained s Hm Hf). reflexivity.
Qed.

(** C10. Whenever no model is in memory, model-info answers "No model
    trained yet", whatever the files on disk; predict on the same state
    loads the three files and answers from them. *)
Theorem model_info_does_not_load (data : Observation) (s : State)
    (m : Forest) (v : Vectorizer) (sc : Scaler) (r : PredictionResponse) :
  model s = None ->
  model_pkl (disk s) = Some m ->
  vectorizer_pkl (disk s) = Some v ->
  scaler_pkl (disk s) = Some sc ->
  answer v sc m data = Ok r ->
  model_info s = Ok NoModelTrained /\
  predict data s = (loaded m v sc s, Ok r) /\
  model (loaded m v sc s) = Some m.
Proof.
  intros Hm Hfm Hfv Hfs Hr. split; [|split].
  - unfold model_info. rewrite Hm. reflexivity.
  - rewrite (predict_loads data s v sc m Hm Hfm Hfv Hfs).
    rewrite (predict_resident data (loaded m v sc s) v sc m);
      [rewrite Hr|..]; reflexivity.
  - reflexivity.
Qed.

(** A record without a valid label is counted by the validation. *)
Lemma invalid_label_found (data : list record) (r : record) :
  In r data ->
  is_alive_or_dead (lookup_key r "status") = false ->
  forallb (fun b => b) (map is_alive_or_dead (status_column data)) = false /\
  (0 < length (List.filter negb
                 (map is_alive_or_dead (status_column data))))%nat.
Proof.
  unfold status_column.
  induction data as [|r' data IH]; intros Hin Hr; [contradiction|].
  cbn [map forallb List.filter].
  destruct Hin as [->|Hin].
  - rewrite Hr. cbn. split; [reflexivity | lia].
  - destruct (IH Hin Hr) as [Hf Hl].
    destruct (is_alive_or_dead (lookup_key r' "status")); cbn.
    + split; assumption.
    + split; [reflexivity | lia].
Qed.

(** C5 (amended). For every training input, if any record lacks the label
    or has a label outside {"alive","dead"}, the whole call fails with
    status 500 "Training failed", which wraps the status-400 validation
    error, and the globals and the files are left as they were. *)
Theorem invalid_label_fails_training (data : list record) (r : record)
    (s : State) :
  In r data ->
  is_alive_or_dead (lookup_key r "status") = false ->
  exists d,
    (d = StatusFieldMissing \/
     exists n, (0 < n)%nat /\ d = InvalidStatusValues n) /\
    train data s =
      (s, Raise (HTTPException 500 (TrainingFailed (HTTPException 400 d)))).
Proof.
  intros Hin Hr.
  destruct (invalid_label_found data r Hin Hr) as [Hf Hl].
  unfold train, try_except, isin_alive_dead, mbind, M_bind, bind.
  destruct (existsb (String.eqb "status") (df_columns data)); cbn [negb].
  - cbv zeta. rewrite Hf. cbn [negb]. eexists. split; [|reflexivity].
    right. eexists. split; [exact Hl | reflexivity].
  - exists StatusFieldMissing. split; [left; reflexivity | reflexivity].
Qed.

End EndpointProperties.

(** ** The response of predict *)

Section Response.

Import Py Api.

(** For a row of two probabilities the response reports the first under
    "alive" when the prediction is "alive", and the second otherwise. *)
Lemma build_response_two (data : Observation) (pred : string) (p0 p1 : Q) :
  exists r,
    build_response data pred [p0; p1] = Ok r /\
    astronomer_status r = pred /\
    confidence r = (if p1 >? p0 then p1 else p0) /\
    probability_alive (metrics r) =
      (if String.eqb pred "alive" then p0 else p1) /\
    probability_dead (metrics r) =
      (if String.eqb pred "alive" then p1 else p0).
Proof.
  unfold build_response, proba_max. cbn [fold_left bind_except].
  destruct (String.eqb pred "alive"); cbn; eexists; repeat split.
Qed.

(** C4, on the code. The forest gives "alive" 0.2 and "dead" 0.8, and so
    predicts "dead" with confidence 0.8; the response reports 0.8 under
    "alive" and 0.2 under "dead": the probability reported for the
    predicted label is not the confidence. *)
Theorem dead_prediction_swaps_probabilities :
  let proba := [0.2; 0.8] in
  Sklearn.vote Sklearn.classes_ proba = Ok "dead" /\
  exists r,
    build_response Risk.low_oxygen "dead" proba = Ok r /\
    confidence r = 0.8 /\
    probability_alive (metrics r) = 0.8 /\
    probability_dead (metrics r) = 0.2.
Proof.
  cbv zeta. split; [vm_compute; reflexivity|].
  destruct (build_response_two Risk.low_oxygen "dead" 0.2 0.8)
    as (r & Hr & _ & Hc & Ha & Hd).
  exists r. repeat split; assumption.
Qed.

End Response.

(** ** The endpoints on the executable library *)

Section Runs.

Import Py Api Reference.

Lemma predict_before_training_witness :
  predict reading (fresh_process no_files) =
  (fresh_process no_files, Raise (HTTPException 400 ModelNotTrained)).
Proof.
  apply (predict_before_training reading (fresh_process no_files));
    reflexivity.
Defined.

Lemma model_info_does_not_load_witness :
  exists m v sc r,
    model_info restarted = Ok NoModelTrained /\
    predict reading restarted = (loaded m v sc restarted, Ok r) /\
    model (loaded m v sc restarted) = Some m.
Proof.
  do 4 eexists.
  apply (model_info_does_not_load reading restarted);
    vm_compute; reflexivity.
Defined.

Lemma invalid_label_fails_training_witness :
  exists d,
    (d = StatusFieldMissing \/
     exists n, (0 < n)%nat /\ d = InvalidStatusValues n) /\
    train unknown_status trained =
      (trained,
       Raise (HTTPException 500 (TrainingFailed (HTTPException 400 d)))).
Proof.
  apply (invalid_label_fails_training unknown_status
           [("oxygen_level", JNum 15); ("status", JStr "unknown")]
           trained).
  - simpl. right. left. reflexivity.
  - vm_compute. reflexivity.
Defined.

(** The atomicity of section 7 does not hold of the code: a training call
    that fails while fitting the vectorizer has already replaced the
    vectorizer and the feature names in memory, and predict no longer
    answers. *)
Lemma failed_training_changes_state :
  let s' := fst (train nested_sample trained) in
  snd (train nested_sample trained) =
    Raise (HTTPException 500 (TrainingFailed (Error "TypeError"))) /\
  vectorizer trained = Some (Some ["co2_level"; "oxygen_level"]) /\
  vectorizer s' = Some None /\
  feature_names s' <> feature_names trained /\
  s' <> trained /\
  (exists r, snd (predict reading trained) = Ok r) /\
  snd (predict reading s') =
    Raise (HTTPException 500 (PredictionFailed (Error "NotFittedError"))).
Proof.
  cbv zeta.
  split; [vm_compute; reflexivity|].
  split; [vm_compute; reflexivity|].
  split; [vm_compute; reflexivity|].
  split; [vm_compute; discriminate|].
  split.
  { intros H. apply (f_equal vectorizer) in H. vm_compute in H.
    discriminate H. }
  split; [eexists; vm_compute; reflexivity|].
  vm_compute. reflexivity.
Qed.

End Runs.

(** * Further properties of [main.py] *)

(** ** The Risk Scorer beyond its table *)

(** X1. CRITICAL is the answer for the label "dead" and for no other; the other
    three tiers are the only other answers. *)
Theorem risk_level_critical_iff_dead (data : Observation) (status : string)
    (confidence : Q) :
  (Risk.calculate_risk_level data status confidence = "CRITICAL" <->
   status = "dead") /\
  In (Risk.calculate_risk_level data status confidence)
     ["LOW"; "MEDIUM"; "HIGH"; "CRITICAL"].
Proof.
  unfold Risk.calculate_risk_level. cbv zeta.
  destruct (String.eqb_spec status "dead") as [Hd|Hd].
  - split; [tauto | simpl; tauto].
  - destruct (5 <=? Risk.risk_score data)%Z;
      [|destruct (2 <=? Risk.risk_score data)%Z];
      (split; [split; [discriminate | contradiction] | simpl; tauto]).
Qed.

(** X2. The score lies between 0 and 13: the two oxygen steps exclude each
    other. *)
Theorem risk_score_bounds (data : Observation) :
  (0 <= Risk.risk_score data <= 13)%Z.
Proof.
  unfold Risk.risk_score.
  destruct (data !! "oxygen_level"); destruct (data !! "co2_level");
    destruct (data !! "radiation"); destruct (data !! "food_supply_days");
    destruct (data !! "water_supply_days"); cbv zeta; split_ifs; lia.
Qed.

Lemma risk_score_ext (data1 data2 : Observation) :
  (forall name, In name Risk.risk_fields -> data1 !! name = data2 !! name) ->
  Risk.risk_score data1 = Risk.risk_score data2.
Proof.
  intros H. unfold Risk.risk_score.
  rewrite !(H "oxygen_level"), !(H "co2_level"), !(H "radiation"),
    !(H "food_supply_days"), !(H "water_supply_days");
    try reflexivity; simpl; tauto.
Qed.

(** X3. A field the scorer does not read changes nothing, whether it is added,
    overwritten or removed. *)
Theorem risk_ignores_other_fields (data : Observation) (name : string)
    (v : Q) (status : string) (confidence : Q) :
  ~ In name Risk.risk_fields ->
  Risk.calculate_risk_level (<[name := v]> data) status confidence =
    Risk.calculate_risk_level data status confidence /\
  Risk.calculate_risk_level (delete name data) status confidence =
    Risk.calculate_risk_level data status confidence.
Proof.
  intros Hn. unfold Risk.calculate_risk_level. cbv zeta.
  rewrite (risk_score_ext (<[name := v]> data) data),
    (risk_score_ext (delete name data) data); [split; reflexivity | |].
  - intros k Hk. apply lookup_delete_ne. intros ->. contradiction.
  - intros k Hk. apply lookup_insert_ne. intros ->. contradiction.
Qed.

Lemma risk_ignores_other_fields_witness :
  Risk.calculate_risk_level (<["temperature" := 40]> Risk.low_oxygen)
    "alive" 1 =
    Risk.calculate_risk_level Risk.low_oxygen "alive" 1 /\
  Risk.calculate_risk_level (delete "temperature" Risk.low_oxygen)
    "alive" 1 =
    Risk.calculate_risk_level Risk.low_oxygen "alive" 1.
Proof.
  apply (risk_ignores_other_fields Risk.low_oxygen "temperature" 40 "alive" 1).
  simpl. intros H. decompose [or] H; first [discriminate | contradiction].
Defined.

(** X4. One risky reading alone never gives HIGH: with at most one of the five
    fields present the score is at most 3, and with none of them the tier is
    LOW. *)
Theorem single_field_never_high (data : Observation) (status : string)
    (confidence : Q) :
  status <> "dead" ->
  (Risk.risk_fields_present data <= 1)%nat ->
  (Risk.risk_score data <= 3)%Z /\
  Risk.calculate_risk_level data status confidence <> "HIGH" /\
  (Risk.risk_fields_present data = 0%nat ->
   Risk.calculate_risk_level data status confidence = "LOW").
Proof.
  intros Hd Hp.
  assert (Hs : (Risk.risk_score data <= 3)%Z /\
               (Risk.risk_fields_present data = 0%nat ->
                Risk.risk_score data = 0%Z)).
  { revert Hp.
    unfold Risk.risk_fields_present, Risk.risk_fields, Py.contains,
      Risk.risk_score.
    cbn [List.filter].
    destruct (data !! "oxygen_level"); destruct (data !! "co2_level");
      destruct (data !! "radiation"); destruct (data !! "food_supply_days");
      destruct (data !! "water_supply_days"); cbn [length]; intros Hp;
      try (exfalso; lia); cbv zeta; split_ifs;
      (split; [lia | intros H0; first [discriminate H0 | reflexivity]]). }
  destruct Hs as [Hs H0]. split; [exact Hs|].
  unfold Risk.calculate_risk_level. cbv zeta.
  destruct (String.eqb_spec status "dead") as [|_]; [contradiction|].
  destruct (Z.leb_spec 5 (Risk.risk_score data)); [lia|].
  split.
  - destruct (2 <=? Risk.risk_score data)%Z; discriminate.
  - intros Hz. rewrite (H0 Hz). reflexivity.
Qed.

Lemma single_field_never_high_witness :
  (Risk.risk_score (<["oxygen_level" := 15%Q]> ∅) <= 3)%Z /\
  Risk.calculate_risk_level (<["oxygen_level" := 15%Q]> ∅) "alive" 1 <> "HIGH" /\
  (Risk.risk_fields_present (<["oxygen_level" := 15%Q]> ∅) = 0%nat ->
   Risk.calculate_risk_level (<["oxygen_level" := 15%Q]> ∅) "alive" 1 = "LOW").
Proof.
  apply (single_field_never_high (<["oxygen_level" := 15%Q]> ∅) "alive" 1).
  - discriminate.
  - vm_compute. lia.
Defined.

(** ** The Feedback Generator beyond its status line *)

(** Every block only appends: what it returns is its input followed by what
    it returns on the empty list. *)
Ltac block_appends :=
  intros;
  repeat match goal with
         | |- context [match ?x with _ => _ end] => destruct x
         end;
  cbn [app]; rewrite ?app_nil_r; reflexivity.

Lemma oxygen_appends data l :
  Feedback.oxygen_analysis data l = l ++ Feedback.oxygen_analysis data [].
Proof. unfold Feedback.oxygen_analysis. block_appends. Qed.

Lemma co2_appends data l :
  Feedback.co2_analysis data l = l ++ Feedback.co2_analysis data [].
Proof. unfold Feedback.co2_analysis. block_appends. Qed.

Lemma temperature_appends data l :
  Feedback.temperature_analysis data l =
  l ++ Feedback.temperature_analysis data [].
Proof. unfold Feedback.temperature_analysis. cbv zeta. block_appends. Qed.

Lemma humidity_appends data l :
  Feedback.humidity_analysis data l = l ++ Feedback.humidity_analysis data [].
Proof. unfold Feedback.humidity_analysis. block_appends. Qed.

Lemma radiation_appends data l :
  Feedback.radiation_analysis data l =
  l ++ Feedback.radiation_analysis data [].
Proof. unfold Feedback.radiation_analysis. block_appends. Qed.

Lemma food_appends data l :
  Feedback.food_analysis data l = l ++ Feedback.food_analysis data [].
Proof. unfold Feedback.food_analysis. block_appends. Qed.

Lemma water_appends data l :
  Feedback.water_analysis data l = l ++ Feedback.water_analysis data [].
Proof. unfold Feedback.water_analysis. block_appends. Qed.

(** The messages of the fields are those of the seven blocks, in the order
    of the source. *)
Lemma field_feedback_blocks (data : Observation) :
  Feedback.field_feedback data =
  Feedback.oxygen_analysis data [] ++ Feedback.co2_analysis data [] ++
  Feedback.temperature_analysis data [] ++
  Feedback.humidity_analysis data [] ++
  Feedback.radiation_analysis data [] ++ Feedback.food_analysis data [] ++
  Feedback.water_analysis data [].
Proof.
  unfold Feedback.field_feedback. cbv zeta.
  rewrite water_appends, food_appends, radiation_appends, humidity_appends,
    temperature_appends, co2_appends.
  rewrite <- !app_assoc. reflexivity.
Qed.

Ltac block_length :=
  unfold Py.contains;
  repeat match goal with
         | |- context [match ?x with _ => _ end] => destruct x
         end;
  reflexivity.

(** X5. The feedback has one message per block whose field is present, and the
    overall-status line: between one and eight messages. *)
Theorem feedback_length (data : Observation) (status : string)
    (confidence : Q) :
  length (Feedback.generate_feedback data status confidence) =
    S (Feedback.blocks_present data) /\
  (1 <= length (Feedback.generate_feedback data status confidence) <= 8)%nat.
Proof.
  assert (H : length (Feedback.generate_feedback data status confidence) =
              S (Feedback.blocks_present data)).
  { rewrite generate_feedback_snoc, length_app, field_feedback_blocks.
    rewrite !length_app. cbn [length].
    unfold Feedback.blocks_present, Feedback.blocks.
    cbn [List.filter existsb]. rewrite !orb_false_r.
    assert (Ho : length (Feedback.oxygen_analysis data []) =
                 if Py.contains data "oxygen_level" then 1%nat else 0%nat)
      by (unfold Feedback.oxygen_analysis; block_length).
    assert (Hc : length (Feedback.co2_analysis data []) =
                 if Py.contains data "co2_level" then 1%nat else 0%nat)
      by (unfold Feedback.co2_analysis; block_length).
    assert (Ht : length (Feedback.temperature_analysis data []) =
                 if Py.contains data "temperature" || Py.contains data "heat"
                 then 1%nat else 0%nat).
    { unfold Feedback.temperature_analysis. cbv zeta.
      destruct (Py.contains data "temperature" || Py.contains data "heat");
        [|reflexivity].
      repeat match goal with
             | |- context [if ?b then _ else _] => destruct b
             end; reflexivity. }
    assert (Hh : length (Feedback.humidity_analysis data []) =
                 if Py.contains data "humidity" then 1%nat else 0%nat)
      by (unfold Feedback.humidity_analysis; block_length).
    assert (Hr : length (Feedback.radiation_analysis data []) =
                 if Py.contains data "radiation" then 1%nat else 0%nat)
      by (unfold Feedback.radiation_analysis; block_length).
    assert (Hf : length (Feedback.food_analysis data []) =
                 if Py.contains data "food_supply_days"
                 then 1%nat else 0%nat)
      by (unfold Feedback.food_analysis; block_length).
    assert (Hw : length (Feedback.water_analysis data []) =
                 if Py.contains data "water_supply_days"
                 then 1%nat else 0%nat)
      by (unfold Feedback.water_analysis; block_length).
    rewrite Ho, Hc, Ht, Hh, Hr, Hf, Hw.
    destruct (Py.contains data "oxygen_level");
      destruct (Py.contains data "co2_level");
      destruct (Py.contains data "temperature" || Py.contains data "heat");
      destruct (Py.contains data "humidity");
      destruct (Py.contains data "radiation");
      destruct (Py.contains data "food_supply_days");
      destruct (Py.contains data "water_supply_days");
      cbn [length]; lia. }
  split; [exact H|]. rewrite H.
  unfold Feedback.blocks_present, Feedback.blocks.
  pose proof (filter_length_le
                (fun keys => existsb (Py.contains data) keys)
                [["oxygen_level"]; ["co2_level"]; ["temperature"; "heat"];
                 ["humidity"]; ["radiation"]; ["food_supply_days"];
                 ["water_supply_days"]]) as Hle.
  cbn [length] in Hle. lia.
Qed.

(** With its field present the oxygen block gives one message, which carries
    the reading and whose tier follows the thresholds 18, 19.5 and 23.5. *)
Lemma oxygen_block (data : Observation) (o2 : Q) :
  data !! "oxygen_level" = Some o2 ->
  exists msg,
    Feedback.oxygen_analysis data [] = [msg] /\
    In (Feedback.Num o2) msg /\
    (Feedback.mentions "CRITICAL" msg = true <-> o2 < 18) /\
    (Feedback.mentions "WARNING" msg = true <->
       (18 <= o2 /\ o2 < 19.5) \/ 23.5 < o2) /\
    (Feedback.mentions "Normal" msg = true <-> 19.5 <= o2 /\ o2 <= 23.5).
Proof.
  intros H. unfold Feedback.oxygen_analysis. rewrite H.
  destruct (o2 <? 18) eqn:E1; [apply ltb_lt in E1 | apply ltb_ge in E1];
    [|destruct (o2 <? 19.5) eqn:E2;
       [apply ltb_lt in E2 | apply ltb_ge in E2];
       [|destruct (o2 >? 23.5) eqn:E3;
          [apply gtb_gt in E3 | apply gtb_le in E3]]];
    (eexists; split; [reflexivity|]; split; [simpl; tauto|]);
    repeat split;
    try (intros Hm; vm_compute in Hm; discriminate Hm);
    try (intros _; vm_compute; reflexivity);
    try (intros; exfalso; lra);
    try lra;
    try (intros _; left; split; lra);
    try (intros _; right; lra);
    try (match goal with
         | Hm : Feedback.mentions _ _ = true |- _ =>
             vm_compute in Hm; discriminate Hm
         end).
Qed.

(** X6. When the observation has an oxygen level, its message comes first: it
    carries the reading, is CRITICAL below 18, WARNING in [18,19.5) and above
    23.5, and Normal in [19.5,23.5]. *)
Theorem oxygen_message_first (data : Observation) (o2 : Q) (status : string)
    (confidence : Q) :
  data !! "oxygen_level" = Some o2 ->
  exists msg rest,
    Feedback.generate_feedback data status confidence = msg :: rest /\
    In (Feedback.Num o2) msg /\
    (Feedback.mentions "CRITICAL" msg = true <-> o2 < 18) /\
    (Feedback.mentions "WARNING" msg = true <->
       (18 <= o2 /\ o2 < 19.5) \/ 23.5 < o2) /\
    (Feedback.mentions "Normal" msg = true <-> 19.5 <= o2 /\ o2 <= 23.5).
Proof.
  intros H. destruct (oxygen_block data o2 H) as (msg & Hb & Hrest).
  exists msg. eexists. split; [|exact Hrest].
  rewrite generate_feedback_snoc, field_feedback_blocks, Hb. reflexivity.
Qed.

Lemma oxygen_message_first_witness :
  exists msg rest,
    Feedback.generate_feedback Risk.low_oxygen "alive" 0.9 = msg :: rest /\
    In (Feedback.Num 15) msg /\
    (Feedback.mentions "CRITICAL" msg = true <-> 15 < 18) /\
    (Feedback.mentions "WARNING" msg = true <->
       (18 <= 15 /\ 15 < 19.5) \/ 23.5 < 15) /\
    (Feedback.mentions "Normal" msg = true <-> 19.5 <= 15 /\ 15 <= 23.5).
Proof.
  apply (oxygen_message_first Risk.low_oxygen 15 "alive" 0.9).
  vm_compute. reflexivity.
Defined.

(** X7. The scorer and the generator disagree above 25: the scorer counts the
    oxygen level as critical (3 points), the generator only warns. *)
Theorem oxygen_above_25_scored_but_warned (data : Observation) (o2 : Q)
    (status : string) (confidence : Q) :
  data !! "oxygen_level" = Some o2 ->
  25 < o2 ->
  (3 <= Risk.risk_score data)%Z /\
  exists msg rest,
    Feedback.generate_feedback data status confidence = msg :: rest /\
    Feedback.mentions "WARNING" msg = true /\
    Feedback.mentions "CRITICAL" msg = false.
Proof.
  intros H Hgt. split.
  - unfold Risk.risk_score. rewrite H.
    assert (E : (o2 >? 25) = true) by (apply gtb_gt; exact Hgt).
    rewrite E, orb_true_r.
    destruct (data !! "co2_level"); destruct (data !! "radiation");
      destruct (data !! "food_supply_days");
      destruct (data !! "water_supply_days"); cbv zeta; split_ifs; lia.
  - destruct (oxygen_block data o2 H) as (msg & Hb & _ & Hc & Hw & _).
    exists msg. eexists. split; [|split].
    + rewrite generate_feedback_snoc, field_feedback_blocks, Hb. reflexivity.
    + apply Hw. right. lra.
    + apply not_true_iff_false. intros Hm. apply Hc in Hm. lra.
Qed.

Lemma oxygen_above_25_scored_but_warned_witness :
  (3 <= Risk.risk_score (<["oxygen_level" := 26%Q]> ∅))%Z /\
  exists msg rest,
    Feedback.generate_feedback (<["oxygen_level" := 26]> ∅) "alive" 0.9 =
      msg :: rest /\
    Feedback.mentions "WARNING" msg = true /\
    Feedback.mentions "CRITICAL" msg = false.
Proof.
  apply (oxygen_above_25_scored_but_warned
           (<["oxygen_level" := 26]> ∅) 26 "alive" 0.9).
  - vm_compute. reflexivity.
  - reflexivity.
Defined.

(** The messages of the fields depend on the observation only through the
    seven lookups and the temperature block. *)
Lemma field_feedback_ext (data1 data2 : Observation) :
  data1 !! "oxygen_level" = data2 !! "oxygen_level" ->
  data1 !! "co2_level" = data2 !! "co2_level" ->
  Feedback.temperature_analysis data1 [] =
    Feedback.temperature_analysis data2 [] ->
  data1 !! "humidity" = data2 !! "humidity" ->
  data1 !! "radiation" = data2 !! "radiation" ->
  data1 !! "food_supply_days" = data2 !! "food_supply_days" ->
  data1 !! "water_supply_days" = data2 !! "water_supply_days" ->
  Feedback.field_feedback data1 = Feedback.field_feedback data2.
Proof.
  intros Ho Hc Ht Hh Hr Hf Hw. rewrite !field_feedback_blocks, Ht.
  unfold Feedback.oxygen_analysis, Feedback.co2_analysis,
    Feedback.humidity_analysis, Feedback.radiation_analysis,
    Feedback.food_analysis, Feedback.water_analysis.
  rewrite Ho, Hc, Hh, Hr, Hf, Hw. reflexivity.
Qed.

(** X8. A field the generator does not know changes nothing, whether it is
    added, overwritten or removed. *)
Theorem feedback_ignores_other_fields (data : Observation) (name : string)
    (v : Q) (status : string) (confidence : Q) :
  ~ In name Feedback.recognized_fields ->
  Feedback.generate_feedback (<[name := v]> data) status confidence =
    Feedback.generate_feedback data status confidence /\
  Feedback.generate_feedback (delete name data) status confidence =
    Feedback.generate_feedback data status confidence.
Proof.
  intros Hn.
  assert (Hne : forall k, In k Feedback.recognized_fields -> name <> k).
  { intros k Hk ->. contradiction. }
  rewrite !generate_feedback_snoc. split; f_equal.
  - apply field_feedback_ext;
      try (apply lookup_insert_ne, Hne; simpl; tauto).
    unfold Feedback.temperature_analysis, Py.contains, Py.get.
    rewrite !lookup_insert_ne by (apply Hne; simpl; tauto). reflexivity.
  - apply field_feedback_ext;
      try (apply lookup_delete_ne, Hne; simpl; tauto).
    unfold Feedback.temperature_analysis, Py.contains, Py.get.
    rewrite !lookup_delete_ne by (apply Hne; simpl; tauto). reflexivity.
Qed.

Lemma feedback_ignores_other_fields_witness :
  Feedback.generate_feedback (<["crew_size" := 4]> Risk.low_oxygen)
    "alive" 0.9 =
    Feedback.generate_feedback Risk.low_oxygen "alive" 0.9 /\
  Feedback.generate_feedback (delete "crew_size" Risk.low_oxygen)
    "alive" 0.9 =
    Feedback.generate_feedback Risk.low_oxygen "alive" 0.9.
Proof.
  apply (feedback_ignores_other_fields Risk.low_oxygen "crew_size" 4
           "alive" 0.9).
  simpl. intros H. decompose [or] H; first [discriminate | contradiction].
Defined.

(** X9. "temperature" wins over "heat": with a temperature in the observation
    the value under "heat" is never read; "heat" is read when there is no
    temperature. *)
Theorem temperature_shadows_heat (data : Observation) (t h : Q)
    (status : string) (confidence : Q) :
  data !! "temperature" = Some t ->
  Feedback.generate_feedback (<["heat" := h]> data) status confidence =
    Feedback.generate_feedback data status confidence /\
  Feedback.generate_feedback (delete "heat" data) status confidence =
    Feedback.generate_feedback data status confidence /\
  Feedback.temperature_analysis (<["heat" := h]> (delete "temperature" data))
    [] =
  Feedback.temperature_analysis (<["temperature" := h]> ∅) [].
Proof.
  intros Ht. rewrite !generate_feedback_snoc. split; [|split].
  - f_equal. apply field_feedback_ext;
      try (apply lookup_insert_ne; discriminate).
    unfold Feedback.temperature_analysis, Py.contains, Py.get.
    rewrite !(lookup_insert_ne data "heat" "temperature") by discriminate.
    rewrite Ht. reflexivity.
  - f_equal. apply field_feedback_ext;
      try (apply lookup_delete_ne; discriminate).
    unfold Feedback.temperature_analysis, Py.contains, Py.get.
    rewrite !(lookup_delete_ne data "heat" "temperature") by discriminate.
    rewrite Ht. reflexivity.
  - unfold Feedback.temperature_analysis, Py.contains, Py.get.
    rewrite !lookup_insert_eq.
    rewrite !(lookup_insert_ne _ "heat" "temperature") by discriminate.
    rewrite !lookup_delete_eq. reflexivity.
Qed.

Lemma temperature_shadows_heat_witness :
  Feedback.generate_feedback (<["heat" := 90]> Reference.warm_reading)
    "alive" 0.9 =
    Feedback.generate_feedback Reference.warm_reading "alive" 0.9 /\
  Feedback.generate_feedback (delete "heat" Reference.warm_reading)
    "alive" 0.9 =
    Feedback.generate_feedback Reference.warm_reading "alive" 0.9 /\
  Feedback.temperature_analysis
    (<["heat" := 90]> (delete "temperature" Reference.warm_reading)) [] =
  Feedback.temperature_analysis (<["temperature" := 90]> ∅) [].
Proof.
  apply (temperature_shadows_heat Reference.warm_reading 22 90 "alive" 0.9).
  vm_compute. reflexivity.
Defined.

(** ** The frame of the training records *)

Section Frame.

Import Py Api.

Lemma has_column_In cols key : has_column cols key <-> In key cols.
Proof.
  unfold has_column. rewrite existsb_exists. split.
  - intros (k & Hk & E). apply String.eqb_eq in E. subst. exact Hk.
  - intros H. exists key. split; [exact H | apply String.eqb_refl].
Qed.

Lemma add_column_In cols key k :
  In k (add_column cols key) <-> In k cols \/ k = key.
Proof.
  unfold add_column.
  destruct (existsb (String.eqb key) cols) eqn:E.
  - apply has_column_In in E. split; [tauto|]. intros [H| ->]; assumption.
  - rewrite in_app_iff. simpl. split.
    + intros [H|[H|[]]]; auto.
    + intros [H|H]; auto.
Qed.

Lemma fold_add_column_In keys cols k :
  In k (fold_left add_column keys cols) <-> In k cols \/ In k keys.
Proof.
  revert cols. induction keys as [|key keys IH]; intros cols; simpl.
  - tauto.
  - rewrite IH, add_column_In. split; intros H; decompose [or] H; auto.
Qed.

Lemma fold_records_In (data : list record) cols k :
  In k (fold_left (fun cols r => fold_left add_column (map fst r) cols)
          data cols) <->
  In k cols \/ exists r, In r data /\ In k (map fst r).
Proof.
  revert cols. induction data as [|r data IH]; intros cols; simpl.
  - split; [tauto|]. intros [H|(r & [] & _)]. exact H.
  - rewrite IH, fold_add_column_In. split.
    + intros [[H|H]|(r' & Hr & Hk)]; eauto.
    + intros [H|(r' & [<-|Hr] & Hk)]; eauto.
Qed.

(** The columns of the frame are the keys of its records. *)
Lemma df_columns_In (data : list record) k :
  In k (df_columns data) <-> exists r, In r data /\ In k (map fst r).
Proof.
  unfold df_columns. rewrite fold_records_In. simpl.
  split; [intros [[]|H]; exact H | auto].
Qed.

Lemma lookup_key_In (r : record) k :
  In k (map fst r) <-> lookup_key r k <> None.
Proof.
  unfold lookup_key. induction r as [|[k' v] r IH]; simpl.
  - split; [tauto | congruence].
  - destruct (String.eqb_spec k' k) as [->|Hne].
    + split; [discriminate | auto].
    + rewrite <- IH. split; [intros [H|H]; [contradiction | exact H] | auto].
Qed.

(** The "status" column exists as soon as one record has the key. *)
Lemma status_column_exists (data : list record) :
  existsb (String.eqb "status") (df_columns data) = true <->
  exists r, In r data /\ lookup_key r "status" <> None.
Proof.
  fold (has_column (df_columns data) "status").
  rewrite has_column_In, df_columns_In.
  split; intros (r & Hr & Hk); exists r; split; auto;
    apply lookup_key_In; exact Hk.
Qed.

Lemma labelled_all_valid (data : list record) :
  (forall r, In r data -> is_alive_or_dead (lookup_key r "status") = true) <->
  forallb (fun b => b) (map is_alive_or_dead (status_column data)) = true.
Proof.
  unfold status_column. induction data as [|r data IH]; simpl.
  - split; [auto | intros _ r []].
  - split.
    + intros H. destruct IH as [IH _].
      rewrite IH by (intros r' Hr'; apply H; auto).
      rewrite (H r (or_introl eq_refl)). reflexivity.
    + intros Hf r' [<-|Hr'].
      * apply andb_true_iff in Hf. tauto.
      * apply andb_true_iff in Hf. apply IH; tauto.
Qed.

Lemma labelled_validates (data : list record) :
  labelled data <->
  existsb (String.eqb "status") (df_columns data) = true /\
  forallb (fun b => b) (map is_alive_or_dead (status_column data)) = true.
Proof.
  unfold labelled. rewrite labelled_all_valid, status_column_exists. split.
  - intros (Hne & Hf). split; [|exact Hf].
    destruct data as [|r data]; [contradiction|].
    exists r. split; [left; reflexivity|].
    pose proof (proj2 (labelled_all_valid (r :: data)) Hf r
                  (or_introl eq_refl)) as Hv.
    destruct (lookup_key r "status"); [discriminate | discriminate Hv].
  - intros ((r & Hr & _) & Hf). split; [|exact Hf].
    intros ->. destruct Hr.
Qed.

(** Once validated, every label is "alive" or "dead". *)
Lemma labelled_counts (data : list record) :
  (forall r, In r data -> is_alive_or_dead (lookup_key r "status") = true) ->
  (count_label "alive" (status_values data) +
   count_label "dead" (status_values data) = length data)%nat.
Proof.
  unfold count_label, status_values.
  induction data as [|r data IH]; intros H; [reflexivity|].
  specialize (IH (fun r' Hr' => H r' (or_intror Hr'))).
  pose proof (H r (or_introl eq_refl)) as Hr.
  cbn [map List.filter length].
  destruct (lookup_key r "status") as [[q|s|]|]; try discriminate Hr.
  cbn [is_alive_or_dead] in Hr.
  destruct (String.eqb_spec s "alive") as [Ha|Ha].
  - rewrite Ha, String.eqb_refl.
    change (String.eqb "dead" "alive") with false. cbn [length]. lia.
  - destruct (String.eqb_spec s "dead") as [Hd|Hd]; [|discriminate Hr].
    rewrite Hd, String.eqb_refl.
    change (String.eqb "alive" "dead") with false. cbn [length]. lia.
Qed.

Lemma drop_status_no_status (cols : list string) :
  ~ In "status" (drop_status cols).
Proof.
  unfold drop_status. rewrite filter_In. intros [_ H].
  rewrite String.eqb_refl in H. discriminate H.
Qed.

End Frame.

(** ** Training, step by step *)

Section Training.

Import Py Api.
Context {L : Library}.

(** Whatever the body of a [try] raises, the caller only sees what the
    handler raises. *)
Lemma try_except_raises {A} (body : M A) (wrap : exn -> exn) (s s' : State)
    (e : exn) :
  try_except body (fun e => raise (wrap e)) s = (s', Raise e) ->
  exists e', e = wrap e'.
Proof.
  unfold try_except, raise. destruct (body s) as [s1 [a|e1]]; intros H.
  - discriminate H.
  - injection H as _ <-. exists e1. reflexivity.
Qed.

(** On a labelled file [train] is its pipeline: the three fits in turn, the
    statistics, the three dumps, and the score. *)
Lemma train_pipeline (data : list record) (s : State) :
  labelled data ->
  train data s =
  let names := drop_status (df_columns data) in
  let X := to_records names data in
  let y := status_values data in
  let failed e := Raise (HTTPException 500 (TrainingFailed e)) in
  let s1 := set_feature_names names s in
  match vectorizer_fit_transform DictVectorizer X with
  | (v, Raise e) => (set_vectorizer (Some v) s1, failed e)
  | (v, Ok X_vect) =>
      let s2 := set_vectorizer (Some v) s1 in
      match scaler_fit_transform StandardScaler X_vect with
      | (sc, Raise e) => (set_scaler (Some sc) s2, failed e)
      | (sc, Ok X_scaled) =>
          let s3 := set_scaler (Some sc) s2 in
          match forest_fit (RandomForestClassifier 100 10 5 42) X_scaled y
          with
          | (m, Raise e) => (set_model (Some m) s3, failed e)
          | (m, Ok _) =>
              let stats :=
                {| samples := length data;
                   features := length names;
                   stats_feature_names := names;
                   alive_count := count_label "alive" y;
                   dead_count := count_label "dead" y |} in
              let s4 :=
                set_disk {| model_pkl := Some m;
                            vectorizer_pkl := Some v;
                            scaler_pkl := Some sc |}
                  (set_training_stats (Some stats)
                     (set_model (Some m) s3)) in
              match forest_score m X_scaled y with
              | Raise e => (s4, failed e)
              | Ok accuracy =>
                  (s4, Ok {| train_message :=
                               "Training completed successfully";
                             train_stats := Some stats;
                             model_accuracy := accuracy |})
              end
          end
      end
  end.
Proof.
  intros Hl. apply labelled_validates in Hl. destruct Hl as (Hc & Hf).
  unfold train, try_except, isin_alive_dead, mbind, M_bind, bind,
    modify, call_fit, call, gets, ret, raise, dump_model, dump_vectorizer,
    dump_scaler.
  cbv zeta. rewrite Hc. cbn [negb]. rewrite Hf. cbn [negb].
  cbn [vectorizer set_vectorizer set_feature_names].
  destruct (vectorizer_fit_transform DictVectorizer
              (to_records (drop_status (df_columns data)) data))
    as [v [X_vect|e]]; [|reflexivity].
  cbn [scaler set_scaler set_vectorizer].
  destruct (scaler_fit_transform StandardScaler X_vect)
    as [sc [X_scaled|e]]; [|reflexivity].
  cbn [model set_model set_scaler].
  destruct (forest_fit (RandomForestClassifier 100 10 5 42) X_scaled
              (status_values data)) as [m [[]|e]]; [|reflexivity].
  cbn.
  destruct (forest_score m X_scaled (status_values data)); reflexivity.
Qed.

(** A training that answers went through both validations. *)
Lemma train_ok_labelled (data : list record) (s s' : State)
    (resp : TrainResponse) :
  train data s = (s', Ok resp) -> labelled data.
Proof.
  intros H. apply labelled_validates. revert H.
  unfold train, try_except, isin_alive_dead, mbind, M_bind, bind, raise.
  cbv zeta.
  destruct (existsb (String.eqb "status") (df_columns data));
    [|discriminate].
  destruct (forallb (fun b => b)
              (map is_alive_or_dead (status_column data)));
    [|discriminate].
  intros _. repeat split.
Qed.

(** The state a training leaves when it answers. *)
Lemma train_ok_state (data : list record) (s s' : State)
    (resp : TrainResponse) :
  train data s = (s', Ok resp) ->
  labelled data /\
  exists v sc m accuracy,
    let names := drop_status (df_columns data) in
    let y := status_values data in
    let stats :=
      {| samples := length data;
         features := length names;
         stats_feature_names := names;
         alive_count := count_label "alive" y;
         dead_count := count_label "dead" y |} in
    s' = {| vectorizer := Some v; model := Some m; scaler := Some sc;
            feature_names := names; training_stats := Some stats;
            disk := {| model_pkl := Some m; vectorizer_pkl := Some v;
                       scaler_pkl := Some sc |} |} /\
    resp = {| train_message := "Training completed successfully";
              train_stats := Some stats;
              model_accuracy := accuracy |}.
Proof.
  intros H. pose proof (train_ok_labelled data s s' resp H) as Hl.
  split; [exact Hl|]. revert H. rewrite (train_pipeline data s Hl). cbv zeta.
  destruct (vectorizer_fit_transform _ _) as [v [X_vect|e]]; [|discriminate].
  destruct (scaler_fit_transform _ _) as [sc [X_scaled|e]]; [|discriminate].
  destruct (forest_fit _ _ _) as [m [[]|e]]; [|discriminate].
  destruct (forest_score _ _ _) as [accuracy|e]; [|discriminate].
  intros H. injection H as <- <-. exists v, sc, m, accuracy.
  split; reflexivity.
Qed.

(** X10. Every failure of [train] reaches the caller as status 500, "Training
    failed": the status-400 validation errors included. *)
Theorem train_fails_with_500 (data : list record) (s s' : State) (e : exn) :
  train data s = (s', Raise e) ->
  exists cause, e = HTTPException 500 (TrainingFailed cause).
Proof.
  unfold train. intros H.
  apply (try_except_raises _
           (fun e => HTTPException 500 (TrainingFailed e)) s s' e H).
Qed.

(** X11. Without any "status" key in the file, the empty file included, [train]
    fails on its first validation and changes nothing. *)
Theorem train_without_status_column (data : list record) (s : State) :
  (forall r, In r data -> lookup_key r "status" = None) ->
  train data s =
  (s, Raise (HTTPException 500
               (TrainingFailed (HTTPException 400 StatusFieldMissing)))).
Proof.
  intros H.
  assert (Hc : existsb (String.eqb "status") (df_columns data) = false).
  { apply not_true_iff_false. rewrite status_column_exists.
    intros (r & Hr & Hk). apply Hk, H, Hr. }
  unfold train, try_except, raise. cbv zeta. rewrite Hc. reflexivity.
Qed.

(** The state after a training that answers, from its answer alone. *)
Lemma train_answer_state (data : list record) (s : State)
    (resp : TrainResponse) :
  snd (train data s) = Ok resp ->
  train data s = (fst (train data s), Ok resp).
Proof.
  destruct (train data s) as [s' r]. cbn [fst snd]. intros ->. reflexivity.
Qed.


(** X13. The statistics of a training that answers: as many samples as records,
    at least one, every sample counted as alive or as dead, and the feature
    names are the columns of the file without "status". *)
Theorem training_statistics (data : list record) (s : State)
    (resp : TrainResponse) :
  snd (train data s) = Ok resp ->
  let s' := fst (train data s) in
  exists stats,
    training_stats s' = Some stats /\
    train_stats resp = Some stats /\
    samples stats = length data /\
    (0 < samples stats)%nat /\
    (alive_count stats + dead_count stats = samples stats)%nat /\
    features stats = length (feature_names s') /\
    stats_feature_names stats = feature_names s' /\
    feature_names s' = drop_status (df_columns data) /\
    ~ In "status" (feature_names s').
Proof.
  intros H. apply train_answer_state in H. cbv zeta.
  destruct (train_ok_state data s _ resp H)
    as ([Hne Hv] & v & sc & m & acc & -> & ->).
  eexists. split; [reflexivity|]. split; [reflexivity|].
  cbn [samples alive_count dead_count features stats_feature_names
       feature_names].
  repeat split.
  - destruct data; [contradiction | simpl; lia].
  - apply labelled_counts, Hv.
  - apply drop_status_no_status.
Qed.

(** X14. A training that answers replaces everything: the state it leaves and
    its answer are the same from any state before it. *)
Theorem retraining_replaces_everything (data : list record)
    (s1 s2 : State) (resp : TrainResponse) :
  snd (train data s1) = Ok resp ->
  train data s2 = train data s1.
Proof.
  intros H. apply train_answer_state in H.
  pose proof (train_ok_labelled data s1 _ resp H) as Hl.
  revert H.
  rewrite !(train_pipeline data s1 Hl), (train_pipeline data s2 Hl).
  cbv zeta.
  destruct (vectorizer_fit_transform _ _) as [v [X_vect|e]];
    [|intros H; discriminate H].
  destruct (scaler_fit_transform _ _) as [sc [X_scaled|e]];
    [|intros H; discriminate H].
  destruct (forest_fit _ _ _) as [m [[]|e]]; [|intros H; discriminate H].
  destruct (forest_score _ _ _) as [accuracy|e]; [|intros H; discriminate H].
  reflexivity.
Qed.

(** X15. When fitting the vectorizer fails on a labelled file, the feature names
    and the vectorizer in memory are already those of the failed call; the
    scaler, the model, the statistics and the files are untouched. *)
Theorem vectorizer_failure_state (data : list record) (s : State)
    (v : Vectorizer) (e : exn) :
  labelled data ->
  vectorizer_fit_transform DictVectorizer
    (to_records (drop_status (df_columns data)) data) = (v, Raise e) ->
  train data s =
  ({| vectorizer := Some v; model := model s; scaler := scaler s;
      feature_names := drop_status (df_columns data);
      training_stats := training_stats s; disk := disk s |},
   Raise (HTTPException 500 (TrainingFailed e))).
Proof.
  intros Hl Hv. rewrite (train_pipeline data s Hl). cbv zeta. rewrite Hv.
  reflexivity.
Qed.

(** X16. After a training that answers, the health check reports the model, the
    number of feature columns and the number of records; the root reports
    the model as loaded, and model-info no longer says "No model trained
    yet". *)
Theorem health_after_training (data : list record) (s : State)
    (resp : TrainResponse) :
  snd (train data s) = Ok resp ->
  let s' := fst (train data s) in
  health s' =
    {| health_status := "healthy";
       model_trained := true;
       features_count := length (drop_status (df_columns data));
       training_samples := length data |} /\
  model_loaded (root s') = true /\
  model_info s' <> Ok NoModelTrained.
Proof.
  intros H. apply train_answer_state in H. cbv zeta.
  destruct (train_ok_state data s _ resp H)
    as (_ & v & sc & m & acc & -> & _).
  unfold health, root, model_info.
  cbn [model feature_names training_stats samples is_not_None].
  repeat split.
  - destruct (drop_status (df_columns data)); reflexivity.
  - destruct (forest_bool m); discriminate.
Qed.

End Training.

(** ** Prediction, case by case *)

Section Prediction.

Import Py Api.
Context {L : Library}.

(** The five ways lines 296-305 can end. *)
Lemma load_outcomes (s : State) :
  (exists m, model s = Some m /\ load_model_if_needed s = (s, Ok tt)) \/
  (model s = None /\ model_pkl (disk s) = None /\
   load_model_if_needed s = (s, Raise (HTTPException 400 ModelNotTrained))) \/
  (exists m, model s = None /\ model_pkl (disk s) = Some m /\
     vectorizer_pkl (disk s) = None /\
     load_model_if_needed s =
       (set_model (Some m) s, Raise (Error "FileNotFoundError"))) \/
  (exists m v, model s = None /\ model_pkl (disk s) = Some m /\
     vectorizer_pkl (disk s) = Some v /\ scaler_pkl (disk s) = None /\
     load_model_if_needed s =
       (set_vectorizer (Some v) (set_model (Some m) s),
        Raise (Error "FileNotFoundError"))) \/
  (exists m v sc, model s = None /\ model_pkl (disk s) = Some m /\
     vectorizer_pkl (disk s) = Some v /\ scaler_pkl (disk s) = Some sc /\
     load_model_if_needed s = (loaded m v sc s, Ok tt)).
Proof.
  destruct (model s) as [m|] eqn:Hm.
  { left. exists m. split; [reflexivity | apply (load_resident s m Hm)]. }
  right.
  destruct (model_pkl (disk s)) as [m|] eqn:Hfm.
  2:{ left. repeat split. apply (load_untrained s Hm Hfm). }
  right.
  destruct (vectorizer_pkl (disk s)) as [v|] eqn:Hfv.
  2:{ left. exists m. repeat split.
      unfold load_model_if_needed, mbind, M_bind, bind, gets, path_exists,
        load, modify, raise.
      rewrite Hm, Hfm. cbn. rewrite Hfm. cbn. rewrite Hfv. reflexivity. }
  right.
  destruct (scaler_pkl (disk s)) as [sc|] eqn:Hfs.
  2:{ left. exists m, v. repeat split.
      unfold load_model_if_needed, mbind, M_bind, bind, gets, path_exists,
        load, modify, raise.
      rewrite Hm, Hfm. cbn. rewrite Hfm. cbn. rewrite Hfv. cbn. rewrite Hfs.
      reflexivity. }
  right. exists m, v, sc. repeat split.
  apply (load_snapshot s m v sc Hm Hfm Hfv Hfs).
Qed.

(** With a model in memory [predict] leaves the state as it is; it answers
    with a response built by [build_response], or fails with status 500. *)
Lemma predict_in_memory (data : Observation) (s : State) (m : Forest) :
  model s = Some m ->
  exists r,
    predict data s = (s, r) /\
    (forall e, r = Raise e ->
       exists cause, e = HTTPException 500 (PredictionFailed cause)) /\
    (forall resp, r = Ok resp ->
       exists pred proba, build_response data pred proba = Ok resp).
Proof.
  intros Hm. unfold predict, mbind, M_bind, bind.
  rewrite (load_resident s m Hm).
  unfold try_except, call, lift, raise. cbn beta.
  destruct (vectorizer s) as [v|];
    [|eexists; split; [reflexivity|]; split; intros ? [=]; eauto].
  destruct (vectorizer_transform v [data]) as [X_new|e];
    [|eexists; split; [reflexivity|]; split; intros ? [=]; eauto].
  destruct (scaler s) as [sc|];
    [|eexists; split; [reflexivity|]; split; intros ? [=]; eauto].
  destruct (scaler_transform sc X_new) as [X_scaled|e];
    [|eexists; split; [reflexivity|]; split; intros ? [=]; eauto].
  rewrite Hm.
  destruct (forest_predict m X_scaled) as [preds|e];
    [|eexists; split; [reflexivity|]; split; intros ? [=]; eauto].
  destruct (item preds 0) as [pred|e];
    [|eexists; split; [reflexivity|]; split; intros ? [=]; eauto].
  rewrite Hm.
  destruct (forest_predict_proba m X_scaled) as [probas|e];
    [|eexists; split; [reflexivity|]; split; intros ? [=]; eauto].
  destruct (item probas 0) as [proba|e];
    [|eexists; split; [reflexivity|]; split; intros ? [=]; eauto].
  destruct (build_response data pred proba) as [resp|e] eqn:Hb;
    eexists; (split; [reflexivity|]); split; intros ? [=]; subst; eauto.
Qed.

(** After the loads [predict] goes on as with the model in memory. *)
Lemma predict_after_load (data : Observation) (s : State)
    (m : Forest) (v : Vectorizer) (sc : Scaler) :
  model s = None ->
  model_pkl (disk s) = Some m ->
  vectorizer_pkl (disk s) = Some v ->
  scaler_pkl (disk s) = Some sc ->
  exists r,
    predict data s = (loaded m v sc s, r) /\
    (forall e, r = Raise e ->
       exists cause, e = HTTPException 500 (PredictionFailed cause)) /\
    (forall resp, r = Ok resp ->
       exists pred proba, build_response data pred proba = Ok resp).
Proof.
  intros Hm Hfm Hfv Hfs.
  rewrite (predict_loads data s v sc m Hm Hfm Hfv Hfs).
  apply (predict_in_memory data (loaded m v sc s) m). reflexivity.
Qed.

(** X17. With a model in memory [predict] never changes the state, whether it
    answers or fails. *)
Theorem predict_leaves_state (data : Observation) (s : State) (m : Forest) :
  model s = Some m ->
  fst (predict data s) = s.
Proof.
  intros Hm. destruct (predict_in_memory data s m Hm) as (r & -> & _).
  reflexivity.
Qed.

(** X18. [predict] never writes the files, the feature names or the statistics:
    all it may change is the three objects in memory. *)
Theorem predict_keeps_files_and_statistics (data : Observation) (s : State) :
  disk (fst (predict data s)) = disk s /\
  feature_names (fst (predict data s)) = feature_names s /\
  training_stats (fst (predict data s)) = training_stats s.
Proof.
  destruct (load_outcomes s)
    as [(m & Hm & _)
       |[(Hm & Hf & Hl)
        |[(m & Hm & Hfm & Hfv & Hl)
         |[(m & v & Hm & Hfm & Hfv & Hfs & Hl)
          |(m & v & sc & Hm & Hfm & Hfv & Hfs & _)]]]].
  - destruct (predict_in_memory data s m Hm) as (r & -> & _).
    repeat split.
  - unfold predict, mbind, M_bind, bind. rewrite Hl. repeat split.
  - unfold predict, mbind, M_bind, bind. rewrite Hl. repeat split.
  - unfold predict, mbind, M_bind, bind. rewrite Hl. repeat split.
  - destruct (predict_after_load data s m v sc Hm Hfm Hfv Hfs)
      as (r & -> & _).
    repeat split.
Qed.

(** X19. The failures of [predict]: an HTTPException it raises is status
    400 "Model not trained yet", with no model in memory, no model file and
    the state unchanged, or status 500 "Prediction failed"; any other
    exception comes from the [joblib.load] calls, which are outside the
    [try]: there is no model in memory and the model file exists. *)
Theorem predict_failures (data : Observation) (s : State) (e : exn) :
  snd (predict data s) = Raise e ->
  match e with
  | HTTPException code d =>
      (code = 400%nat /\ d = ModelNotTrained /\ fst (predict data s) = s /\
       model s = None /\ model_pkl (disk s) = None) \/
      (code = 500%nat /\ exists cause, d = PredictionFailed cause)
  | Error _ => model s = None /\ model_pkl (disk s) <> None
  end.
Proof.
  intros H.
  destruct (load_outcomes s)
    as [(m & Hm & _)
       |[(Hm & Hf & Hl)
        |[(m & Hm & Hfm & Hfv & Hl)
         |[(m & v & Hm & Hfm & Hfv & Hfs & Hl)
          |(m & v & sc & Hm & Hfm & Hfv & Hfs & _)]]]].
  - destruct (predict_in_memory data s m Hm) as (r & Hp & He & _).
    rewrite Hp in H. cbn [snd] in H. destruct (He e H) as (cause & ->).
    right. split; [reflexivity|]. exists cause. reflexivity.
  - revert H. unfold predict, mbind, M_bind, bind. rewrite Hl.
    cbn [fst snd]. intros [= <-]. left. repeat split; assumption.
  - revert H. unfold predict, mbind, M_bind, bind. rewrite Hl.
    cbn [fst snd]. intros [= <-]. split; congruence.
  - revert H. unfold predict, mbind, M_bind, bind. rewrite Hl.
    cbn [fst snd]. intros [= <-]. split; congruence.
  - destruct (predict_after_load data s m v sc Hm Hfm Hfv Hfs)
      as (r & Hp & He & _).
    rewrite Hp in H. cbn [snd] in H. destruct (He e H) as (cause & ->).
    right. split; [reflexivity|]. exists cause. reflexivity.
Qed.


(** X21. The statistics and the feature names are not in the files: in a fresh
    process, once [predict] has loaded the three files, the health check
    reports a trained model with 0 features and 0 samples, and model-info
    reports the model with no statistics and no feature names. *)
Theorem statistics_are_not_persisted (data : Observation) (d : Disk)
    (m : Forest) (v : Vectorizer) (sc : Scaler) :
  model_pkl d = Some m ->
  vectorizer_pkl d = Some v ->
  scaler_pkl d = Some sc ->
  let s' := fst (predict data (fresh_process d)) in
  health s' =
    {| health_status := "healthy"; model_trained := true;
       features_count := 0; training_samples := 0 |} /\
  model_info s' =
    bind_except (forest_bool m) (fun truthy =>
    Ok (Info "RandomForestClassifier" None
          (if truthy then Some (forest_get_params m) else None) [])).
Proof.
  intros Hfm Hfv Hfs. cbv zeta.
  destruct (predict_after_load data (fresh_process d) m v sc)
    as (r & -> & _); try assumption; try reflexivity.
  split; reflexivity.
Qed.

(** X22. In every response the risk level and the feedback are those of the
    observation with the returned status and confidence: the risk level is
    CRITICAL exactly when the status is "dead", the last line of the feedback
    is the overall-status line, and the field count is the size of the
    observation. *)
Theorem response_is_consistent (data : Observation) (s : State)
    (resp : PredictionResponse) :
  snd (predict data s) = Ok resp ->
  risk_level resp =
    Risk.calculate_risk_level data (astronomer_status resp)
      (confidence resp) /\
  feedback resp =
    Feedback.generate_feedback data (astronomer_status resp)
      (confidence resp) /\
  (risk_level resp = "CRITICAL" <-> astronomer_status resp = "dead") /\
  last (feedback resp) =
    Some (Feedback.overall_status (astronomer_status resp)
            (confidence resp)) /\
  field_count (metrics resp) = size data.
Proof.
  intros H.
  assert (Hb : exists pred proba, build_response data pred proba = Ok resp).
  { destruct (load_outcomes s)
      as [(m & Hm & _)
         |[(Hm & Hf & Hl)
          |[(m & Hm & Hfm & Hfv & Hl)
           |[(m & v & Hm & Hfm & Hfv & Hfs & Hl)
            |(m & v & sc & Hm & Hfm & Hfv & Hfs & _)]]]].
    - destruct (predict_in_memory data s m Hm) as (r & Hp & _ & Ho).
      rewrite Hp in H. cbn [snd] in H. apply Ho, H.
    - revert H. unfold predict, mbind, M_bind, bind. rewrite Hl. discriminate.
    - revert H. unfold predict, mbind, M_bind, bind. rewrite Hl. discriminate.
    - revert H. unfold predict, mbind, M_bind, bind. rewrite Hl. discriminate.
    - destruct (predict_after_load data s m v sc Hm Hfm Hfv Hfs)
        as (r & Hp & _ & Ho).
      rewrite Hp in H. cbn [snd] in H. apply Ho, H. }
  destruct Hb as (pred & proba & Hb). revert Hb.
  unfold build_response.
  destruct (proba_max proba) as [c|]; [|discriminate]. cbn [bind_except].
  destruct (if String.eqb pred "alive" then item proba 0 else item proba 1);
    [|discriminate].
  cbn [bind_except].
  destruct (if String.eqb pred "alive" then item proba 1 else item proba 0);
    [|discriminate].
  cbn [bind_except]. intros [= <-].
  cbn [risk_level feedback astronomer_status confidence metrics field_count].
  split; [reflexivity|]. split; [reflexivity|]. split; [|split].
  - unfold Risk.calculate_risk_level. cbv zeta.
    destruct (String.eqb_spec pred "dead") as [Hd|Hd]; [tauto|].
    destruct (5 <=? Risk.risk_score data)%Z;
      [|destruct (2 <=? Risk.risk_score data)%Z];
      (split; [discriminate | contradiction]).
  - rewrite generate_feedback_snoc. apply last_snoc.
  - reflexivity.
Qed.

End Prediction.

(** ** The response, from the row of probabilities *)

Section Probabilities.

Import Py Api.

Lemma proba_max_fold (rest : list Q) (p : Q) :
  let m := fold_left (fun m x => if x >? m then x else m) rest p in
  In m (p :: rest) /\ p <= m /\ forall x, In x rest -> x <= m.
Proof.
  revert p. induction rest as [|x rest IH]; intros p; cbv zeta.
  - simpl. split; [left; reflexivity|]. split; [lra | intros x []].
  - cbn [fold_left]. specialize (IH (if x >? p then x else p)).
    cbv zeta in IH. destruct IH as (Hin & Hle & Hall).
    destruct (x >? p) eqn:E; [apply gtb_gt in E | apply gtb_le in E].
    + split; [|split].
      * destruct Hin as [<-|Hin]; [right; left; reflexivity|].
        right. right. exact Hin.
      * lra.
      * intros y [<-|Hy]; [exact Hle | apply Hall, Hy].
    + split; [|split].
      * destruct Hin as [<-|Hin]; [left; reflexivity|].
        right. right. exact Hin.
      * exact Hle.
      * intros y [<-|Hy]; [lra | apply Hall, Hy].
Qed.

(** X23. The confidence of a response is an entry of the row of probabilities,
    and no entry is larger. *)
Theorem confidence_is_the_maximum (data : Observation) (pred : string)
    (proba : list Q) (resp : PredictionResponse) :
  build_response data pred proba = Ok resp ->
  In (confidence resp) proba /\
  forall p, In p proba -> p <= confidence resp.
Proof.
  unfold build_response, proba_max.
  destruct proba as [|p rest]; [discriminate|]. cbn [bind_except].
  destruct (if String.eqb pred "alive" then item (p :: rest) 0
            else item (p :: rest) 1); [|discriminate].
  cbn [bind_except].
  destruct (if String.eqb pred "alive" then item (p :: rest) 1
            else item (p :: rest) 0); [|discriminate].
  cbn [bind_except]. intros [= <-]. cbn [confidence].
  destruct (proba_max_fold rest p) as (Hin & Hle & Hall).
  split; [exact Hin|]. intros x [<-|Hx]; [exact Hle | apply Hall, Hx].
Qed.

(** X24. A response needs a row of at least two probabilities: on a shorter row,
    as a forest fitted on a single class gives, building it fails. *)
Theorem response_needs_two_classes (data : Observation) (pred : string)
    (proba : list Q) :
  (exists resp, build_response data pred proba = Ok resp) <->
  (2 <= length proba)%nat.
Proof.
  unfold build_response, proba_max, item.
  destruct proba as [|p0 [|p1 rest]]; cbn [bind_except nth_error length].
  - split; [intros (r & H); discriminate H | lia].
  - split; [|lia]. intros (r & H).
    destruct (String.eqb pred "alive"); discriminate H.
  - split; [lia|]. intros _.
    destruct (String.eqb pred "alive"); eexists; reflexivity.
Qed.

(** X25. When the status is the forest's vote on a row of two probabilities, the
    response puts the larger one under "alive" and the smaller one under
    "dead", whatever the status: "alive" always carries the confidence. *)
Theorem alive_carries_the_confidence (data : Observation) (pred : string)
    (p0 p1 : Q) (resp : PredictionResponse) :
  Sklearn.vote Sklearn.classes_ [p0; p1] = Ok pred ->
  build_response data pred [p0; p1] = Ok resp ->
  probability_alive (metrics resp) = confidence resp /\
  probability_dead (metrics resp) <= probability_alive (metrics resp) /\
  (astronomer_status resp = "dead" ->
   probability_dead (metrics resp) = p0 /\
   probability_alive (metrics resp) = p1).
Proof.
  intros Hv Hb.
  destruct (build_response_two data pred p0 p1)
    as (r & Hr & Hs & Hc & Ha & Hd).
  rewrite Hr in Hb. injection Hb as <-.
  rewrite Hs, Hc, Ha, Hd. revert Hv.
  unfold Sklearn.vote, Sklearn.classes_, Sklearn.argmax, item.
  cbn [Sklearn.argmax_from].
  destruct (p1 >? p0) eqn:E; [apply gtb_gt in E | apply gtb_le in E];
    cbn [nth_error]; intros [= <-]; cbn.
  - repeat split; try reflexivity. lra.
  - split; [reflexivity|]. split; [exact E|]. discriminate.
Qed.

End Probabilities.

(** ** The further properties on the executable library *)

Section FurtherRuns.

Import Py Api Reference.

Lemma train_fails_with_500_witness :
  exists cause,
    HTTPException 500 (TrainingFailed (Error "TypeError")) =
    HTTPException 500 (TrainingFailed cause).
Proof.
  apply (train_fails_with_500 nested_sample trained
           (fst (train nested_sample trained))).
  reflexivity.
Defined.

Lemma train_without_status_column_witness :
  train [[("oxygen_level", JNum 20)]] trained =
  (trained,
   Raise (HTTPException 500
            (TrainingFailed (HTTPException 400 StatusFieldMissing)))).
Proof.
  apply (train_without_status_column [[("oxygen_level", JNum 20)]] trained).
  intros r [<-|[]]. reflexivity.
Defined.


Lemma training_statistics_witness :
  exists resp,
    snd (train two_samples (fresh_process no_files)) = Ok resp /\
    exists stats,
      training_stats trained = Some stats /\
      train_stats resp = Some stats /\
      samples stats = length two_samples /\
      (0 < samples stats)%nat /\
      (alive_count stats + dead_count stats = samples stats)%nat /\
      features stats = length (feature_names trained) /\
      stats_feature_names stats = feature_names trained /\
      feature_names trained = drop_status (df_columns two_samples) /\
      ~ In "status" (feature_names trained).
Proof.
  eexists. split.
  - vm_compute. reflexivity.
  - eapply (training_statistics two_samples (fresh_process no_files)).
    vm_compute. reflexivity.
Defined.

Lemma retraining_replaces_everything_witness :
  train two_samples restarted = train two_samples (fresh_process no_files).
Proof.
  eapply (retraining_replaces_everything two_samples
            (fresh_process no_files) restarted).
  vm_compute. reflexivity.
Defined.

Lemma vectorizer_failure_state_witness :
  train nested_sample trained =
  ({| vectorizer := Some None; model := model trained;
      scaler := scaler trained;
      feature_names := drop_status (df_columns nested_sample);
      training_stats := training_stats trained; disk := disk trained |},
   Raise (HTTPException 500 (TrainingFailed (Error "TypeError")))).
Proof.
  apply (vectorizer_failure_state nested_sample trained None
           (Error "TypeError")).
  - split; [discriminate|]. intros r [<-|[]]. reflexivity.
  - reflexivity.
Defined.

Lemma health_after_training_witness :
  health trained =
    {| health_status := "healthy"; model_trained := true;
       features_count := length (drop_status (df_columns two_samples));
       training_samples := length two_samples |} /\
  model_loaded (root trained) = true /\
  model_info trained <> Ok NoModelTrained.
Proof.
  eapply (health_after_training two_samples (fresh_process no_files)).
  vm_compute. reflexivity.
Defined.

Lemma predict_leaves_state_witness :
  fst (predict reading trained) = trained.
Proof.
  eapply (predict_leaves_state reading trained).
  vm_compute. reflexivity.
Defined.

Lemma predict_failures_witness :
  model model_file_only = None /\ model_pkl (disk model_file_only) <> None.
Proof.
  apply (predict_failures reading model_file_only
           (Error "FileNotFoundError")).
  vm_compute. reflexivity.
Defined.


Lemma statistics_are_not_persisted_witness :
  exists m,
    health (fst (predict reading (fresh_process (disk trained)))) =
      {| health_status := "healthy"; model_trained := true;
         features_count := 0; training_samples := 0 |} /\
    model_info (fst (predict reading (fresh_process (disk trained)))) =
      bind_except (forest_bool m) (fun truthy =>
      Ok (Info "RandomForestClassifier" None
            (if truthy then Some (forest_get_params m) else None) [])).
Proof.
  eexists.
  eapply (statistics_are_not_persisted reading (disk trained));
    vm_compute; reflexivity.
Defined.

Lemma response_is_consistent_witness :
  exists resp,
    snd (predict reading trained) = Ok resp /\
    (risk_level resp =
       Risk.calculate_risk_level reading (astronomer_status resp)
         (confidence resp) /\
     feedback resp =
       Feedback.generate_feedback reading (astronomer_status resp)
         (confidence resp) /\
     (risk_level resp = "CRITICAL" <-> astronomer_status resp = "dead") /\
     last (feedback resp) =
       Some (Feedback.overall_status (astronomer_status resp)
               (confidence resp)) /\
     field_count (metrics resp) = size reading).
Proof.
  eexists. split.
  - vm_compute. reflexivity.
  - eapply (response_is_consistent reading trained).
    vm_compute. reflexivity.
Defined.

Lemma confidence_is_the_maximum_witness :
  exists resp,
    build_response reading "dead" [0.2; 0.8] = Ok resp /\
    In (confidence resp) [0.2; 0.8] /\
    forall p, In p [0.2; 0.8] -> p <= confidence resp.
Proof.
  eexists. split.
  - vm_compute. reflexivity.
  - eapply (confidence_is_the_maximum reading "dead" [0.2; 0.8]).
    vm_compute. reflexivity.
Defined.

Lemma alive_carries_the_confidence_witness :
  exists resp,
    build_response reading "dead" [0.2; 0.8] = Ok resp /\
    probability_alive (metrics resp) = confidence resp /\
    probability_dead (metrics resp) <= probability_alive (metrics resp) /\
    (astronomer_status resp = "dead" ->
     probability_dead (metrics resp) = 0.2 /\
     probability_alive (metrics resp) = 0.8).
Proof.
  eexists. split.
  - vm_compute. reflexivity.
  - eapply (alive_carries_the_confidence reading "dead" 0.2 0.8).
    + vm_compute. reflexivity.
    + vm_compute. reflexivity.
Defined.

End FurtherRuns.
